(** * keras-resnet: residual blocks and ResNet topologies as graph wiring

    A shallow embedding of [keras_resnet/blocks/_1d.py] and
    [keras_resnet/models/_2d.py].  The Python code only wires layers of the
    host framework together, so a tensor is modelled by the symbolic
    expression that produced it: the layer constructor calls, with the
    arguments the source passes, applied to their input tensors. *)

From Stdlib Require Import ZArith List String Ascii Bool Lia.
From Stdlib Require Import DecimalString.
From Stdlib Require DecimalPos DecimalZ.
Import ListNotations.
Open Scope Z_scope.

(** ** The Python fragment the sources use *)

Module Py.

Inductive exn : Type :=
| ValueError
| OverflowError
| IndexError
| AssertionError.

Inductive result (A : Type) : Type :=
| Ok (a : A)
| Raise (e : exn).

Arguments Ok {A} a.
Arguments Raise {A} e.

Definition bind {A B : Type} (c : result A) (k : A -> result B) : result B :=
  match c with
  | Ok a => k a
  | Raise e => Raise e
  end.

(** A Python [str] is a sequence of Unicode code points. *)
Definition str : Type := list Z.

(** A string literal of the source text. *)
Definition lit (s : string) : str :=
  map (fun a => Z.of_N (N_of_ascii a)) (list_ascii_of_string s).

(** [ord] of a one-character literal. *)
Definition ord (a : ascii) : Z := Z.of_N (N_of_ascii a).

(** [chr(i)]: the one-character string of code point [i].  CPython first
    converts [i] to a C int, which raises [OverflowError] outside
    [-2**31 .. 2**31 - 1], and then raises [ValueError] when [i] is not in
    [range(0x110000)]. *)
Definition chr (i : Z) : result str :=
  if (i <? -2147483648) || (2147483647 <? i) then Raise OverflowError
  else if (0 <=? i) && (i <? 1114112) then Ok [i]
  else Raise ValueError.

(** [str(i)] on an [int]: its decimal numeral, with a leading minus sign
    when negative.  CPython from 3.11 on refuses by default to convert an
    int of more than 4300 digits; the model converts every int. *)
Definition str_of_int (i : Z) : str :=
  lit (NilZero.string_of_int (Z.to_int i)).

(** [template.format(args...)] for templates whose only replacement fields
    are the automatically numbered [{}]; every other character is copied.
    A field without an argument raises [IndexError], a brace that is not
    part of [{}] raises [ValueError]. *)
Fixpoint format (template : string) (args : list str) : result str :=
  match template with
  | EmptyString => Ok []
  | String c rest =>
      if Ascii.eqb c "{" then
        match rest with
        | String d rest' =>
            if Ascii.eqb d "}" then
              match args with
              | a :: args' =>
                  match format rest' args' with
                  | Ok r => Ok (a ++ r)
                  | Raise e => Raise e
                  end
              | [] => Raise IndexError
              end
            else Raise ValueError
        | EmptyString => Raise ValueError
        end
      else if Ascii.eqb c "}" then Raise ValueError
      else
        match format rest args with
        | Ok r => Ok (ord c :: r)
        | Raise e => Raise e
        end
  end.

(** [range(n)] *)
Definition range (n : Z) : list Z :=
  map Z.of_nat (seq 0 (Z.to_nat n)).

(** [len(l)] *)
Definition len {A : Type} (l : list A) : Z := Z.of_nat (List.length l).

(** [enumerate(l)] *)
Definition enumerate {A : Type} (l : list A) : list (Z * A) :=
  combine (range (len l)) l.

(** [l[i]] for a non-negative or negative index; [IndexError] out of
    range. *)
Definition getitem {A : Type} (l : list A) (i : Z) : result A :=
  let j := if i <? 0 then i + len l else i in
  if j <? 0 then Raise IndexError
  else
    match nth_error l (Z.to_nat j) with
    | Some a => Ok a
    | None => Raise IndexError
    end.

(** [[v] * n] *)
Definition list_repeat {A : Type} (v : A) (n : Z) : list A :=
  repeat v (Z.to_nat n).

End Py.

Import Py.

Notation "x <- c ;; k" := (Py.bind c (fun x => k))
  (at level 61, c at next level, right associativity).

(** ** Layers and tensors of the host framework *)

(** Which of the two residual blocks of [keras_resnet.blocks._2d] a node
    stands for. *)
Inductive block_kind : Type :=
| Basic
| Bottleneck.

(** A layer is recorded as its constructor call.  [strides = None] means the
    keyword was not passed.  [epsilon] keeps the float literal as written.
    [Residual2D] is an opaque residual block: it records the arguments a
    block constructor was called with. *)
Inductive layer : Type :=
| ZeroPadding1D (padding : Z) (name : str)
| Conv1D (filters kernel_size : Z) (strides : option Z) (use_bias : bool)
         (name : str) (kernel_initializer : str)
| BatchNormalization (axis : Z) (epsilon : string) (freeze : bool) (name : str)
| Activation (activation : str) (name : str)
| Add (name : str)
| Conv2D (filters : Z) (kernel_size strides : Z * Z) (use_bias : bool)
         (name : str) (padding : str)
| MaxPooling2D (pool_size strides : Z * Z) (padding : str) (name : str)
| GlobalAveragePooling2D (name : str)
| Dense (units : Z) (activation : str) (name : str)
| Residual2D (kind : block_kind) (filters stage block : Z)
             (numerical_name freeze_bn : bool).

(** A tensor handle is the expression that built it: [Call1 l x] is [l(x)]
    and [Call2 l x y] is [l([x, y])]. *)
Inductive tensor : Type :=
| Input (shape : list Z)
| Call1 (l : layer) (x : tensor)
| Call2 (l : layer) (x y : tensor).

Definition layer_name (l : layer) : option str :=
  match l with
  | ZeroPadding1D _ n => Some n
  | Conv1D _ _ _ _ n _ => Some n
  | BatchNormalization _ _ _ n => Some n
  | Activation _ n => Some n
  | Add n => Some n
  | Conv2D _ _ _ _ n _ => Some n
  | MaxPooling2D _ _ _ n => Some n
  | GlobalAveragePooling2D n => Some n
  | Dense _ _ n => Some n
  | Residual2D _ _ _ _ _ _ => None
  end.

(** All layer calls of the expression, inputs before the layers that
    consume them. *)
Fixpoint layers_of (t : tensor) : list layer :=
  match t with
  | Input _ => []
  | Call1 l x => layers_of x ++ [l]
  | Call2 l x y => layers_of x ++ layers_of y ++ [l]
  end.

(** ** keras_resnet.blocks._1d *)

Record conv_parameters : Type := { kernel_initializer : str }.

Definition parameters : conv_parameters :=
  {| kernel_initializer := lit "he_normal" |}.

(** The local variables of a block constructor that its inner function [f]
    closes over. *)
Record block_locals : Type := {
  stride : Z;
  axis : Z;
  block_char : str;
  stage_char : str
}.

Definition residual_block : Type := tensor -> result tensor.

Section Blocks1D.

(** [keras.backend.image_data_format()] *)
Variable image_data_format : str.

Definition str_eqb (a b : str) : bool :=
  if list_eq_dec Z.eq_dec a b then true else false.

(** The statements of [basic_1d] before [def f]. *)
Definition basic_1d_locals (stage block : Z) (numerical_name : bool)
    (stride : option Z) : result block_locals :=
  let stride :=
    match stride with
    | None =>
        if negb (block =? 0) || (stage =? 0) then 1
        else 2
    | Some s => s
    end in
  let axis :=
    if str_eqb image_data_format (lit "channels_last") then -1 else 1 in
  block_char <-
    (if (block >? 0) && numerical_name
     then format "b{}" [str_of_int block]
     else chr (ord "a" + block)) ;;
  let stage_char := str_of_int (stage + 2) in
  Ok {| stride := stride; axis := axis;
        block_char := block_char; stage_char := stage_char |}.

(** The inner function [f] of [basic_1d]. *)
Definition basic_1d_f (filters block kernel_size : Z) (freeze_bn : bool)
    (v : block_locals) (x : tensor) : result tensor :=
  let stage_char := stage_char v in
  let block_char := block_char v in
  n <- format "padding{}{}_branch2a" [stage_char; block_char] ;;
  let y := Call1 (ZeroPadding1D 1 n) x in
  n <- format "res{}{}_branch2a" [stage_char; block_char] ;;
  let y := Call1 (Conv1D filters kernel_size (Some (stride v)) false n
                    (kernel_initializer parameters)) y in
  n <- format "bn{}{}_branch2a" [stage_char; block_char] ;;
  let y := Call1 (BatchNormalization (axis v) "1e-5" freeze_bn n) y in
  n <- format "res{}{}_branch2a_relu" [stage_char; block_char] ;;
  let y := Call1 (Activation (lit "relu") n) y in
  n <- format "padding{}{}_branch2b" [stage_char; block_char] ;;
  let y := Call1 (ZeroPadding1D 1 n) y in
  n <- format "res{}{}_branch2b" [stage_char; block_char] ;;
  let y := Call1 (Conv1D filters kernel_size None false n
                    (kernel_initializer parameters)) y in
  n <- format "bn{}{}_branch2b" [stage_char; block_char] ;;
  let y := Call1 (BatchNormalization (axis v) "1e-5" freeze_bn n) y in
  shortcut <-
    (if block =? 0 then
       n <- format "res{}{}_branch1" [stage_char; block_char] ;;
       let shortcut :=
         Call1 (Conv1D filters 1 (Some (stride v)) false n
                  (kernel_initializer parameters)) x in
       n <- format "bn{}{}_branch1" [stage_char; block_char] ;;
       Ok (Call1 (BatchNormalization (axis v) "1e-5" freeze_bn n) shortcut)
     else Ok x) ;;
  n <- format "res{}{}" [stage_char; block_char] ;;
  let y := Call2 (Add n) y shortcut in
  n <- format "res{}{}_relu" [stage_char; block_char] ;;
  let y := Call1 (Activation (lit "relu") n) y in
  Ok y.

Definition basic_1d (filters stage block kernel_size : Z)
    (numerical_name : bool) (stride : option Z) (freeze_bn : bool)
    : result residual_block :=
  v <- basic_1d_locals stage block numerical_name stride ;;
  Ok (basic_1d_f filters block kernel_size freeze_bn v).

(** The statements of [bottleneck_1d] before [def f]. *)
Definition bottleneck_1d_locals (stage block : Z) (numerical_name : bool)
    (stride : option Z) : result block_locals :=
  let stride :=
    match stride with
    | None => if negb (block =? 0) || (stage =? 0) then 1 else 2
    | Some s => s
    end in
  let axis :=
    if str_eqb image_data_format (lit "channels_last") then -1 else 1 in
  block_char <-
    (if (block >? 0) && numerical_name
     then format "b{}" [str_of_int block]
     else chr (ord "a" + block)) ;;
  let stage_char := str_of_int (stage + 2) in
  Ok {| stride := stride; axis := axis;
        block_char := block_char; stage_char := stage_char |}.

(** The inner function [f] of [bottleneck_1d]. *)
Definition bottleneck_1d_f (filters block kernel_size : Z) (freeze_bn : bool)
    (v : block_locals) (x : tensor) : result tensor :=
  let stage_char := stage_char v in
  let block_char := block_char v in
  n <- format "res{}{}_branch2a" [stage_char; block_char] ;;
  let y := Call1 (Conv1D filters 1 (Some (stride v)) false n
                    (kernel_initializer parameters)) x in
  n <- format "bn{}{}_branch2a" [stage_char; block_char] ;;
  let y := Call1 (BatchNormalization (axis v) "1e-5" freeze_bn n) y in
  n <- format "res{}{}_branch2a_relu" [stage_char; block_char] ;;
  let y := Call1 (Activation (lit "relu") n) y in
  n <- format "padding{}{}_branch2b" [stage_char; block_char] ;;
  let y := Call1 (ZeroPadding1D 1 n) y in
  n <- format "res{}{}_branch2b" [stage_char; block_char] ;;
  let y := Call1 (Conv1D filters kernel_size None false n
                    (kernel_initializer parameters)) y in
  n <- format "bn{}{}_branch2b" [stage_char; block_char] ;;
  let y := Call1 (BatchNormalization (axis v) "1e-5" freeze_bn n) y in
  n <- format "res{}{}_branch2b_relu" [stage_char; block_char] ;;
  let y := Call1 (Activation (lit "relu") n) y in
  n <- format "res{}{}_branch2c" [stage_char; block_char] ;;
  let y := Call1 (Conv1D (filters * 4) 1 None false n
                    (kernel_initializer parameters)) y in
  n <- format "bn{}{}_branch2c" [stage_char; block_char] ;;
  let y := Call1 (BatchNormalization (axis v) "1e-5" freeze_bn n) y in
  shortcut <-
    (if block =? 0 then
       n <- format "res{}{}_branch1" [stage_char; block_char] ;;
       let shortcut :=
         Call1 (Conv1D (filters * 4) 1 (Some (stride v)) false n
                  (kernel_initializer parameters)) x in
       n <- format "bn{}{}_branch1" [stage_char; block_char] ;;
       Ok (Call1 (BatchNormalization (axis v) "1e-5" freeze_bn n) shortcut)
     else Ok x) ;;
  n <- format "res{}{}" [stage_char; block_char] ;;
  let y := Call2 (Add n) y shortcut in
  n <- format "res{}{}_relu" [stage_char; block_char] ;;
  let y := Call1 (Activation (lit "relu") n) y in
  Ok y.

Definition bottleneck_1d (filters stage block kernel_size : Z)
    (numerical_name : bool) (stride : option Z) (freeze_bn : bool)
    : result residual_block :=
  v <- bottleneck_1d_locals stage block numerical_name stride ;;
  Ok (bottleneck_1d_f filters block kernel_size freeze_bn v).

End Blocks1D.

(** ** keras_resnet.models._2d *)

(** A block constructor as [ResNet2D] calls it:
    [block(filters, stage, block, numerical_name=..., freeze_bn=...)]. *)
Definition block_constructor : Type :=
  Z -> Z -> Z -> bool -> bool -> result residual_block.

(** The names [keras_resnet.models._2d] takes from the [blocks] package.
    Their module, [keras_resnet/blocks/_2d.py], is not among the sources, so
    the package is a parameter of the model constructors. *)
Record blocks_package : Type := {
  basic_2d : block_constructor;
  bottleneck_2d : block_constructor
}.

(** The [outputs] argument of [keras.Model.__init__]: one tensor or a list. *)
Inductive model_outputs : Type :=
| OutputTensor (x : tensor)
| OutputList (l : list tensor).

Record Model : Type := {
  inputs : tensor;
  outputs : model_outputs
}.

Section Models2D.

Variable image_data_format : str.
Variable blocks : blocks_package.

(** [for block_id in range(iterations): x = block(...)(x)] *)
Fixpoint ResNet2D_blocks (block : block_constructor)
    (numerical_names : list bool) (freeze_bn : bool)
    (features stage_id : Z) (block_ids : list Z) (x : tensor)
    : result tensor :=
  match block_ids with
  | [] => Ok x
  | block_id :: block_ids' =>
      numerical_name <-
        (if block_id >? 0 then getitem numerical_names stage_id
         else Ok false) ;;
      f <- block features stage_id block_id numerical_name freeze_bn ;;
      x <- f x ;;
      ResNet2D_blocks block numerical_names freeze_bn features stage_id
        block_ids' x
  end.

(** [for stage_id, iterations in enumerate(residual_blocks): ...] on the
    loop state [(x, features, outputs)]. *)
Fixpoint ResNet2D_stages (block : block_constructor)
    (numerical_names : list bool) (freeze_bn : bool)
    (stages : list (Z * Z)) (x : tensor) (features : Z)
    (outputs : list tensor) : result (tensor * Z * list tensor) :=
  match stages with
  | [] => Ok (x, features, outputs)
  | (stage_id, iterations) :: stages' =>
      x <- ResNet2D_blocks block numerical_names freeze_bn features stage_id
             (range iterations) x ;;
      let features := features * 2 in
      let outputs := outputs ++ [x] in
      ResNet2D_stages block numerical_names freeze_bn stages' x features
        outputs
  end.

(** The stem: [conv1], [bn_conv1], [conv1_relu], [pool1]. *)
Definition ResNet2D_stem (inputs : tensor) (freeze_bn : bool) : tensor :=
  let axis :=
    if str_eqb image_data_format (lit "channels_last") then 3 else 1 in
  let x := Call1 (Conv2D 64 (7, 7) (2, 2) false (lit "conv1") (lit "same"))
             inputs in
  let x := Call1 (BatchNormalization axis "1e-5" freeze_bn (lit "bn_conv1"))
             x in
  let x := Call1 (Activation (lit "relu") (lit "conv1_relu")) x in
  Call1 (MaxPooling2D (3, 3) (2, 2) (lit "same") (lit "pool1")) x.

(** [ResNet2D.__init__]; the extra positional and keyword arguments, which
    only travel to [keras.Model.__init__], are left out.  Defaults of the
    source: [include_top=True], [classes=1000], [freeze_bn=True],
    [numerical_names=None]. *)
Definition ResNet2D (inputs : tensor) (residual_blocks : list Z)
    (block : block_constructor) (include_top : bool) (classes : Z)
    (freeze_bn : bool) (numerical_names : option (list bool))
    : result Model :=
  let numerical_names :=
    match numerical_names with
    | None => list_repeat true (len residual_blocks)
    | Some l => l
    end in
  let x := ResNet2D_stem inputs freeze_bn in
  let features := 64 in
  let outputs := [] in
  st <- ResNet2D_stages block numerical_names freeze_bn
          (enumerate residual_blocks) x features outputs ;;
  let '(x, _, outputs) := st in
  if include_top then
    if classes >? 0 then
      let x := Call1 (GlobalAveragePooling2D (lit "pool5")) x in
      let x := Call1 (Dense classes (lit "softmax") (lit "fc1000")) x in
      Ok {| inputs := inputs; outputs := OutputTensor x |}
    else Raise AssertionError
  else
    Ok {| inputs := inputs; outputs := OutputList outputs |}.

Definition default_blocks (residual_blocks : option (list Z))
    (table : list Z) : list Z :=
  match residual_blocks with
  | None => table
  | Some l => l
  end.

(** The six variants.  Defaults of the source: [residual_blocks=None],
    [include_top=True], [classes=1000], [freeze_bn=False]. *)
Definition ResNet2D18 (inputs : tensor) (residual_blocks : option (list Z))
    (include_top : bool) (classes : Z) (freeze_bn : bool) : result Model :=
  let residual_blocks := default_blocks residual_blocks [2; 2; 2; 2] in
  ResNet2D inputs residual_blocks (basic_2d blocks) include_top classes
    freeze_bn None.

Definition ResNet2D34 (inputs : tensor) (residual_blocks : option (list Z))
    (include_top : bool) (classes : Z) (freeze_bn : bool) : result Model :=
  let residual_blocks := default_blocks residual_blocks [3; 4; 6; 3] in
  ResNet2D inputs residual_blocks (basic_2d blocks) include_top classes
    freeze_bn None.

Definition ResNet2D50 (inputs : tensor) (residual_blocks : option (list Z))
    (include_top : bool) (classes : Z) (freeze_bn : bool) : result Model :=
  let residual_blocks := default_blocks residual_blocks [3; 4; 6; 3] in
  let numerical_names := [false; false; false; false] in
  ResNet2D inputs residual_blocks (bottleneck_2d blocks) include_top classes
    freeze_bn (Some numerical_names).

Definition ResNet2D101 (inputs : tensor) (residual_blocks : option (list Z))
    (include_top : bool) (classes : Z) (freeze_bn : bool) : result Model :=
  let residual_blocks := default_blocks residual_blocks [3; 4; 23; 3] in
  let numerical_names := [false; true; true; false] in
  ResNet2D inputs residual_blocks (bottleneck_2d blocks) include_top classes
    freeze_bn (Some numerical_names).

Definition ResNet2D152 (inputs : tensor) (residual_blocks : option (list Z))
    (include_top : bool) (classes : Z) (freeze_bn : bool) : result Model :=
  let residual_blocks := default_blocks residual_blocks [3; 8; 36; 3] in
  let numerical_names := [false; true; true; false] in
  ResNet2D inputs residual_blocks (bottleneck_2d blocks) include_top classes
    freeze_bn (Some numerical_names).

Definition ResNet2D200 (inputs : tensor) (residual_blocks : option (list Z))
    (include_top : bool) (classes : Z) (freeze_bn : bool) : result Model :=
  let residual_blocks := default_blocks residual_blocks [3; 24; 36; 3] in
  let numerical_names := [false; true; true; false] in
  ResNet2D inputs residual_blocks (bottleneck_2d blocks) include_top classes
    freeze_bn (Some numerical_names).

End Models2D.

(** *** Opaque blocks

    A block constructor that never raises and whose block is the single
    node [Residual2D], carrying the arguments of the call: the graph a model
    constructor builds with it shows every block call it made. *)
Definition opaque_block (kind : block_kind) : block_constructor :=
  fun filters stage block numerical_name freeze_bn =>
    Ok (fun x =>
          Ok (Call1 (Residual2D kind filters stage block numerical_name
                       freeze_bn) x)).

Definition opaque_blocks : blocks_package :=
  {| basic_2d := opaque_block Basic; bottleneck_2d := opaque_block Bottleneck |}.

(** The layer calls of everything a model outputs. *)
Definition model_layers (m : Model) : list layer :=
  match outputs m with
  | OutputTensor x => layers_of x
  | OutputList l => flat_map layers_of l
  end.

Definition channels_last : str := lit "channels_last".

(** ** The graph of a residual block, written out *)

(** [stack ls x]: the layers [ls] called one after the other, starting on
    [x]. *)
Definition stack (ls : list layer) (x : tensor) : tensor :=
  fold_left (fun t l => Call1 l t) ls x.

(** The name a template gives: [prefix{stage_char}{block_char}suffix]. *)
Definition template_name (prefix : string) (v : block_locals)
    (suffix : string) : str :=
  lit prefix ++ stage_char v ++ block_char v ++ lit suffix.

Definition he_normal : str := lit "he_normal".
Definition relu : str := lit "relu".

Definition basic_1d_main (filters kernel_size : Z) (freeze_bn : bool)
    (v : block_locals) : list layer :=
  [ ZeroPadding1D 1 (template_name "padding" v "_branch2a");
    Conv1D filters kernel_size (Some (stride v)) false
      (template_name "res" v "_branch2a") he_normal;
    BatchNormalization (axis v) "1e-5" freeze_bn
      (template_name "bn" v "_branch2a");
    Activation relu (template_name "res" v "_branch2a_relu");
    ZeroPadding1D 1 (template_name "padding" v "_branch2b");
    Conv1D filters kernel_size None false
      (template_name "res" v "_branch2b") he_normal;
    BatchNormalization (axis v) "1e-5" freeze_bn
      (template_name "bn" v "_branch2b") ].

Definition bottleneck_1d_main (filters kernel_size : Z) (freeze_bn : bool)
    (v : block_locals) : list layer :=
  [ Conv1D filters 1 (Some (stride v)) false
      (template_name "res" v "_branch2a") he_normal;
    BatchNormalization (axis v) "1e-5" freeze_bn
      (template_name "bn" v "_branch2a");
    Activation relu (template_name "res" v "_branch2a_relu");
    ZeroPadding1D 1 (template_name "padding" v "_branch2b");
    Conv1D filters kernel_size None false
      (template_name "res" v "_branch2b") he_normal;
    BatchNormalization (axis v) "1e-5" freeze_bn
      (template_name "bn" v "_branch2b");
    Activation relu (template_name "res" v "_branch2b_relu");
    Conv1D (filters * 4) 1 None false
      (template_name "res" v "_branch2c") he_normal;
    BatchNormalization (axis v) "1e-5" freeze_bn
      (template_name "bn" v "_branch2c") ].

(** The projection shortcut with [channels] output channels. *)
Definition projection (channels : Z) (freeze_bn : bool) (v : block_locals)
    : list layer :=
  [ Conv1D channels 1 (Some (stride v)) false
      (template_name "res" v "_branch1") he_normal;
    BatchNormalization (axis v) "1e-5" freeze_bn
      (template_name "bn" v "_branch1") ].

(** The add of the two paths followed by the ReLU. *)
Definition add_relu (v : block_locals) (y shortcut : tensor) : tensor :=
  Call1 (Activation relu (template_name "res" v "_relu"))
    (Call2 (Add (template_name "res" v "")) y shortcut).


(** The fixed name templates of the two blocks. *)
Definition templates (v : block_locals) : list str :=
  [ template_name "padding" v "_branch2a";
    template_name "res" v "_branch2a";
    template_name "bn" v "_branch2a";
    template_name "res" v "_branch2a_relu";
    template_name "padding" v "_branch2b";
    template_name "res" v "_branch2b";
    template_name "bn" v "_branch2b";
    template_name "res" v "_branch1";
    template_name "bn" v "_branch1";
    template_name "res" v "";
    template_name "res" v "_relu";
    template_name "res" v "_branch2b_relu";
    template_name "res" v "_branch2c";
    template_name "bn" v "_branch2c" ].

Definition alphabet : str := lit "abcdefghijklmnopqrstuvwxyz".

(** The block character as the specification words it: ["b"] and the
    decimal block number for a numerically named block after the first,
    otherwise the letter at position [block] of the alphabet. *)
Definition block_char_as_specified (block : Z) (numerical_name : bool)
    (b : str) : Prop :=
  if (block >? 0) && numerical_name
  then b = lit "b" ++ str_of_int block
  else 0 <= block /\
       exists c, nth_error alphabet (Z.to_nat block) = Some c /\ b = [c].

Fixpoint tensor_size (t : tensor) : nat :=
  match t with
  | Input _ => 0
  | Call1 _ x => S (tensor_size x)
  | Call2 _ x y => S (tensor_size x + tensor_size y)
  end.

(** What [ResNet2D] passes to a block it builds: the block belongs to a
    stage and to that stage's iterations, its filters are [64 * 2 ^ stage],
    and it is numerically named only after the stage's first block and when
    the stage's entry of [numerical_names] says so. *)
Definition designed_call (kind : block_kind) (residual_blocks : list Z)
    (numerical_names : list bool) (freeze_bn : bool) (l : layer) : Prop :=
  match l with
  | Residual2D k filters stage block numerical_name fb =>
      k = kind /\ fb = freeze_bn /\
      0 <= stage /\
      (exists iterations,
         nth_error residual_blocks (Z.to_nat stage) = Some iterations /\
         0 <= block < iterations) /\
      filters = 64 * 2 ^ stage /\
      (if block >? 0
       then getitem numerical_names stage = Ok numerical_name
       else numerical_name = false)
  | _ => True
  end.

(** The [numerical_names] in force: the argument, or its default. *)
Definition numerical_names_or_default (residual_blocks : list Z)
    (numerical_names : option (list bool)) : list bool :=
  match numerical_names with
  | None => repeat true (List.length residual_blocks)
  | Some l => l
  end.

(** A block constructor that always returns a block, whose call always
    returns a tensor. *)
Definition never_raises (block : block_constructor) : Prop :=
  forall filters stage b numerical_name freeze_bn,
  exists f,
    block filters stage b numerical_name freeze_bn = Ok f /\
    forall x, exists y, f x = Ok y.

(** The [(stage, block)] pairs of the opaque blocks among some layers, in
    their order. *)
Definition block_ids (ls : list layer) : list (Z * Z) :=
  flat_map
    (fun l =>
       match l with
       | Residual2D _ _ stage block _ _ => [(stage, block)]
       | _ => []
       end) ls.

(** The [(stage, block)] pairs the two loops of [ResNet2D] go through on a
    list of [(stage_id, iterations)]. *)
Definition scheduled_blocks (stages : list (Z * Z)) : list (Z * Z) :=
  flat_map (fun st => map (fun b => (fst st, b)) (range (snd st))) stages.

(** The literal parts of the name templates. *)
Definition prefixes : list string := ["padding"; "res"; "bn"]%string.

Definition suffixes : list string :=
  ["_branch2a"; "_branch2a_relu"; "_branch2b"; "_branch2b_relu";
   "_branch2c"; "_branch1"; ""; "_relu"]%string.

(** The characters of a decimal numeral: the minus sign and the digits. *)
Definition numeral_char (c : Z) : Prop := c = 45 \/ 48 <= c <= 57.

(** What may follow a numeral in a name: nothing, or a character that is
    not part of a numeral. *)
Definition ends_numeral (r : str) : Prop :=
  match r with
  | [] => True
  | c :: _ => ~ numeral_char c
  end.

(** The tensor that holds every layer of a model: its output, or the last
    of its outputs. *)
Definition final_tensor (m : Model) : tensor :=
  match outputs m with
  | OutputTensor t => t
  | OutputList outs => last outs (inputs m)
  end.

(** A construction builds the blocks of a table with one kind of block:
    it returns a model, every block of the model is of that kind, and the
    blocks of the model are, in order, blocks [0] to [table[i] - 1] of
    every stage [i] in turn. *)
Definition builds (kind : block_kind) (table : list Z) (r : result Model)
    : Prop :=
  exists m,
    r = Ok m /\
    (forall k filters stage block flag fb,
       In (Residual2D k filters stage block flag fb) (model_layers m) ->
       k = kind) /\
    block_ids (layers_of (final_tensor m)) =
    scheduled_blocks (enumerate table).

Lemma basic_1d_f_graph filters block kernel_size freeze_bn v x :
  basic_1d_f filters block kernel_size freeze_bn v x =
  Ok (add_relu v
        (stack (basic_1d_main filters kernel_size freeze_bn v) x)
        (if block =? 0 then stack (projection filters freeze_bn v) x else x)).
Proof.
  unfold basic_1d_f. destruct (block =? 0); reflexivity.
Qed.

Lemma bottleneck_1d_f_graph filters block kernel_size freeze_bn v x :
  bottleneck_1d_f filters block kernel_size freeze_bn v x =
  Ok (add_relu v
        (stack (bottleneck_1d_main filters kernel_size freeze_bn v) x)
        (if block =? 0 then stack (projection (filters * 4) freeze_bn v) x
         else x)).
Proof.
  unfold bottleneck_1d_f. destruct (block =? 0); reflexivity.
Qed.

Lemma stack_not_input (l1 l2 : layer) (x : tensor) : stack [l1; l2] x <> x.
Proof.
  intro H. apply (f_equal tensor_size) in H. simpl in H. lia.
Qed.

Lemma basic_1d_ok df filters stage block kernel_size numerical_name stride
    freeze_bn f :
  basic_1d df filters stage block kernel_size numerical_name stride freeze_bn
  = Ok f ->
  exists v,
    basic_1d_locals df stage block numerical_name stride = Ok v /\
    f = basic_1d_f filters block kernel_size freeze_bn v.
Proof.
  unfold basic_1d.
  destruct (basic_1d_locals df stage block numerical_name stride) as [v|e];
    simpl; intro H; [|discriminate].
  exists v. split; [reflexivity|congruence].
Qed.

Lemma bottleneck_1d_ok df filters stage block kernel_size numerical_name
    stride freeze_bn f :
  bottleneck_1d df filters stage block kernel_size numerical_name stride
    freeze_bn = Ok f ->
  exists v,
    bottleneck_1d_locals df stage block numerical_name stride = Ok v /\
    f = bottleneck_1d_f filters block kernel_size freeze_bn v.
Proof.
  unfold bottleneck_1d.
  destruct (bottleneck_1d_locals df stage block numerical_name stride)
    as [v|e]; simpl; intro H; [|discriminate].
  exists v. split; [reflexivity|congruence].
Qed.

(** The two constructors compute their locals by the same expressions. *)
Lemma locals_agree df stage block numerical_name stride :
  basic_1d_locals df stage block numerical_name stride =
  bottleneck_1d_locals df stage block numerical_name stride.
Proof. reflexivity. Qed.

Lemma chr_in_range i : 0 <= i < 1114112 -> chr i = Ok [i].
Proof.
  intro H. unfold chr.
  replace ((i <? -2147483648) || (2147483647 <? i)) with false
    by (symmetry; apply orb_false_intro; apply Z.ltb_ge; lia).
  replace ((0 <=? i) && (i <? 1114112)) with true
    by (symmetry; apply andb_true_intro;
        split; [apply Z.leb_le | apply Z.ltb_lt]; lia).
  reflexivity.
Qed.

Lemma chr_ok i c : chr i = Ok c -> c = [i] /\ 0 <= i < 1114112.
Proof.
  unfold chr.
  destruct ((i <? -2147483648) || (2147483647 <? i)); [discriminate|].
  destruct ((0 <=? i) && (i <? 1114112)) eqn:R; [|discriminate].
  apply andb_prop in R. destruct R as [R1 R2].
  apply Z.leb_le in R1. apply Z.ltb_lt in R2.
  intro H. injection H as <-. split; [reflexivity|lia].
Qed.

Lemma locals_inv df stage block numerical_name given v :
  basic_1d_locals df stage block numerical_name given = Ok v ->
  stride v =
    match given with
    | None => if negb (block =? 0) || (stage =? 0) then 1 else 2
    | Some s => s
    end /\
  stage_char v = str_of_int (stage + 2) /\
  (if (block >? 0) && numerical_name
   then block_char v = lit "b" ++ str_of_int block
   else block_char v = [97 + block] /\ 0 <= 97 + block < 1114112).
Proof.
  unfold basic_1d_locals.
  destruct ((block >? 0) && numerical_name) eqn:E.
  - simpl. intro H. injection H as <-. simpl. repeat split.
    rewrite app_nil_r. reflexivity.
  - change (ord "a") with 97.
    destruct (chr (97 + block)) as [c|e] eqn:R;
      unfold bind; intro H; [|discriminate].
    apply chr_ok in R. destruct R as [-> R].
    injection H as <-. cbn [stride stage_char block_char].
    repeat split; lia.
Qed.

(** ** Stride placement *)

(** C2: with [stride=None], both block constructors derive the stride [d]
    that is 1 when [block != 0] or [stage == 0] and 2 otherwise, and that
    stride is the [strides] argument of the first convolution of the main
    branch ([res{s}{b}_branch2a]) and of the convolution of the projection
    shortcut ([res{s}{b}_branch1], built when [block == 0]). *)
Theorem default_stride_placement
    df filters stage block kernel_size numerical_name freeze_bn f1 f2 x :
  basic_1d df filters stage block kernel_size numerical_name None freeze_bn
    = Ok f1 ->
  bottleneck_1d df filters stage block kernel_size numerical_name None
    freeze_bn = Ok f2 ->
  exists d v rest1 rest2,
    (block <> 0 \/ stage = 0 -> d = 1) /\
    (~ (block <> 0 \/ stage = 0) -> d = 2) /\
    f1 x =
      Ok (add_relu v
            (stack
               (ZeroPadding1D 1 (template_name "padding" v "_branch2a")
                :: Conv1D filters kernel_size (Some d) false
                     (template_name "res" v "_branch2a") he_normal
                :: rest1) x)
            (if block =? 0
             then stack
                    [Conv1D filters 1 (Some d) false
                       (template_name "res" v "_branch1") he_normal;
                     BatchNormalization (axis v) "1e-5" freeze_bn
                       (template_name "bn" v "_branch1")] x
             else x)) /\
    f2 x =
      Ok (add_relu v
            (stack
               (Conv1D filters 1 (Some d) false
                  (template_name "res" v "_branch2a") he_normal
                :: rest2) x)
            (if block =? 0
             then stack
                    [Conv1D (filters * 4) 1 (Some d) false
                       (template_name "res" v "_branch1") he_normal;
                     BatchNormalization (axis v) "1e-5" freeze_bn
                       (template_name "bn" v "_branch1")] x
             else x)).
Proof.
  intros H1 H2.
  apply basic_1d_ok in H1. destruct H1 as [v [Hv ->]].
  apply bottleneck_1d_ok in H2. destruct H2 as [v' [Hv' ->]].
  rewrite <- locals_agree in Hv'. rewrite Hv in Hv'. injection Hv' as <-.
  destruct (locals_inv _ _ _ _ _ _ Hv) as [Hs _].
  exists (stride v), v. eexists. eexists.
  split; [|split; [|split]].
  - intros [Hb | Hst]; rewrite Hs.
    + apply Z.eqb_neq in Hb. rewrite Hb. reflexivity.
    + apply Z.eqb_eq in Hst. rewrite Hst, orb_true_r. reflexivity.
  - intro Hn. rewrite Hs.
    destruct (block =? 0) eqn:Eb.
    + destruct (stage =? 0) eqn:Es; [|reflexivity].
      apply Z.eqb_eq in Es. exfalso. apply Hn. right. exact Es.
    + apply Z.eqb_neq in Eb. exfalso. apply Hn. left. exact Eb.
  - rewrite basic_1d_f_graph. reflexivity.
  - rewrite bottleneck_1d_f_graph. reflexivity.
Qed.

(** ** The shortcut path *)

(** C3: in both blocks the shortcut handed to the add is the projection (a
    width-1 convolution [res{s}{b}_branch1] followed by the batch
    normalization [bn{s}{b}_branch1], both on the block input) when
    [block == 0], and the unmodified block input exactly when [block != 0].
    In [bottleneck_1d] the projection has [filters * 4] output channels, as
    has [res{s}{b}_branch2c], the last convolution of the main branch. *)
Theorem projection_shortcut
    df filters stage block kernel_size numerical_name given freeze_bn
    f1 f2 x :
  basic_1d df filters stage block kernel_size numerical_name given freeze_bn
    = Ok f1 ->
  bottleneck_1d df filters stage block kernel_size numerical_name given
    freeze_bn = Ok f2 ->
  exists v main1 main2 shortcut1 shortcut2,
    f1 x = Ok (add_relu v main1 shortcut1) /\
    f2 x =
      Ok (add_relu v
            (stack
               [Conv1D (filters * 4) 1 None false
                  (template_name "res" v "_branch2c") he_normal;
                BatchNormalization (axis v) "1e-5" freeze_bn
                  (template_name "bn" v "_branch2c")] main2)
            shortcut2) /\
    (block = 0 ->
     shortcut1 =
       stack
         [Conv1D filters 1 (Some (stride v)) false
            (template_name "res" v "_branch1") he_normal;
          BatchNormalization (axis v) "1e-5" freeze_bn
            (template_name "bn" v "_branch1")] x /\
     shortcut2 =
       stack
         [Conv1D (filters * 4) 1 (Some (stride v)) false
            (template_name "res" v "_branch1") he_normal;
          BatchNormalization (axis v) "1e-5" freeze_bn
            (template_name "bn" v "_branch1")] x) /\
    (block <> 0 <-> shortcut1 = x) /\
    (block <> 0 <-> shortcut2 = x).
Proof.
  intros H1 H2.
  apply basic_1d_ok in H1. destruct H1 as [v [Hv ->]].
  apply bottleneck_1d_ok in H2. destruct H2 as [v' [Hv' ->]].
  rewrite <- locals_agree in Hv'. rewrite Hv in Hv'. injection Hv' as <-.
  exists v. do 4 eexists.
  split; [apply basic_1d_f_graph|].
  split; [rewrite bottleneck_1d_f_graph; reflexivity|].
  destruct (block =? 0) eqn:Eb.
  - apply Z.eqb_eq in Eb. subst block.
    split; [intros _; split; reflexivity|].
    split; (split; [intro H; now elim H| intro H; exfalso;
                    exact (stack_not_input _ _ _ H)]).
  - apply Z.eqb_neq in Eb.
    split; [intro H; now elim Eb|].
    split; (split; [reflexivity| intros _; exact Eb]).
Qed.

(** ** The output of a block *)


(** ** The two constructors agree *)

(** C10: for the same [stage], [block] and [numerical_name] and
    [stride=None], the if/else statement of [basic_1d] and the conditional
    expression of [bottleneck_1d] give the same stride, and the two
    constructors give the same block and stage characters; they also raise
    alike. *)
Theorem basic_and_bottleneck_locals_agree df stage block numerical_name :
  basic_1d_locals df stage block numerical_name None =
  bottleneck_1d_locals df stage block numerical_name None.
Proof.
  unfold basic_1d_locals, bottleneck_1d_locals.
  destruct ((block >? 0) && numerical_name); reflexivity.
Qed.

(** ** Layer names *)

Lemma alphabet_letter block :
  0 <= block <= 25 ->
  nth_error alphabet (Z.to_nat block) = Some (97 + block).
Proof.
  intro H.
  rewrite <- (Z2Nat.id block) at 2 by lia.
  assert (Hn : (Z.to_nat block < 26)%nat) by lia.
  revert Hn. generalize (Z.to_nat block) as n. intros n Hn.
  do 26 (destruct n as [|n]; [reflexivity|]).
  lia.
Qed.

Lemma block_layers_named filters block kernel_size freeze_bn v shape y1 y2 :
  basic_1d_f filters block kernel_size freeze_bn v (Input shape) = Ok y1 ->
  bottleneck_1d_f filters block kernel_size freeze_bn v (Input shape) = Ok y2 ->
  forall l, In l (layers_of y1 ++ layers_of y2) ->
  exists n, layer_name l = Some n /\ In n (templates v).
Proof.
  rewrite basic_1d_f_graph, bottleneck_1d_f_graph.
  intros H1 H2. injection H1 as <-. injection H2 as <-.
  intros l Hl.
  destruct (block =? 0); cbn in Hl;
    repeat (destruct Hl as [<- | Hl];
            [eexists; split; [reflexivity|];
             unfold templates; repeat (try (left; reflexivity); right)|]);
    contradiction.
Qed.

(** C5, as far as the code goes: the stage character is the decimal string
    of [stage + 2]; the block character is ["b"] followed by the decimal
    block number when [block > 0] and [numerical_name], and otherwise the
    one character of code point [ord('a') + block], which is the letter at
    alphabet position [block] when [0 <= block <= 25]; every layer of either
    block is named by one of the fixed templates.  The constructors return
    whenever the block is numerically named after the first or
    [0 <= block <= 25]. *)
Theorem layer_names df stage block numerical_name given :
  ((0 < block /\ numerical_name = true) \/ 0 <= block <= 25 ->
   exists v, basic_1d_locals df stage block numerical_name given = Ok v) /\
  forall v,
    basic_1d_locals df stage block numerical_name given = Ok v ->
    bottleneck_1d_locals df stage block numerical_name given = Ok v /\
    stage_char v = str_of_int (stage + 2) /\
    block_char v =
      (if (block >? 0) && numerical_name
       then lit "b" ++ str_of_int block
       else [ord "a" + block]) /\
    (0 <= block <= 25 ->
     block_char_as_specified block numerical_name (block_char v)) /\
    forall filters kernel_size freeze_bn shape,
    exists y1 y2,
      basic_1d_f filters block kernel_size freeze_bn v (Input shape) = Ok y1 /\
      bottleneck_1d_f filters block kernel_size freeze_bn v (Input shape)
        = Ok y2 /\
      forall l, In l (layers_of y1 ++ layers_of y2) ->
      exists n, layer_name l = Some n /\ In n (templates v).
Proof.
  split.
  - intro H. unfold basic_1d_locals.
    destruct ((block >? 0) && numerical_name) eqn:E.
    + eexists. reflexivity.
    + change (ord "a") with 97.
      assert (R : 0 <= block <= 25).
      { destruct H as [[Hb Hn] | H]; [|exact H].
        subst numerical_name. rewrite andb_true_r in E.
        rewrite Z.gtb_ltb, Z.ltb_ge in E. lia. }
      rewrite chr_in_range by lia.
      eexists. reflexivity.
  - intros v Hv.
    split; [rewrite <- locals_agree; exact Hv|].
    destruct (locals_inv _ _ _ _ _ _ Hv) as [_ [Hs Hb]].
    split; [exact Hs|].
    split; [destruct ((block >? 0) && numerical_name); [exact Hb|apply Hb]|].
    split.
    + intro R. unfold block_char_as_specified.
      destruct ((block >? 0) && numerical_name); [exact Hb|].
      destruct Hb as [Hb _]. split; [lia|].
      exists (97 + block). split; [apply alphabet_letter; exact R|exact Hb].
    + intros filters kernel_size freeze_bn shape.
      do 2 eexists. split; [apply basic_1d_f_graph|].
      split; [apply bottleneck_1d_f_graph|].
      apply (block_layers_named filters block kernel_size freeze_bn v shape);
        [apply basic_1d_f_graph | apply bottleneck_1d_f_graph].
Qed.

(** C5 as worded fails past the alphabet: block 26, named by letter, gets
    the character after ['z'], which is no letter. *)
Lemma block_char_past_alphabet :
  exists v,
    basic_1d_locals channels_last 0 26 false None = Ok v /\
    bottleneck_1d_locals channels_last 0 26 false None = Ok v /\
    block_char v = lit "{" /\
    ~ block_char_as_specified 26 false (block_char v).
Proof.
  eexists. split; [reflexivity|]. split; [reflexivity|].
  split; [reflexivity|].
  unfold block_char_as_specified. cbn.
  intros [_ [c [H _]]]. discriminate H.
Qed.

(** ** The loops of [ResNet2D] *)

Section Loops.

Variable block : block_constructor.
Variable numerical_names : list bool.
Variable freeze_bn : bool.

Lemma range_last n :
  0 < n -> range n = range (n - 1) ++ [n - 1].
Proof.
  intro H. unfold range.
  replace (Z.to_nat n) with (S (Z.to_nat (n - 1))) by lia.
  rewrite seq_S, map_app. simpl.
  rewrite Z2Nat.id by lia. reflexivity.
Qed.

Lemma in_range b n : In b (range n) -> 0 <= b < n.
Proof.
  unfold range. rewrite in_map_iff. intros [k [<- Hk]].
  apply in_seq in Hk. lia.
Qed.

Lemma blocks_last features stage_id ids b x y :
  ResNet2D_blocks block numerical_names freeze_bn features stage_id
    (ids ++ [b]) x = Ok y ->
  exists numerical_name f x',
    block features stage_id b numerical_name freeze_bn = Ok f /\
    f x' = Ok y.
Proof.
  revert x. induction ids as [|a ids IH]; intros x; simpl.
  - destruct (if b >? 0 then getitem numerical_names stage_id else Ok false)
      as [nn|e]; simpl; [|discriminate].
    destruct (block features stage_id b nn freeze_bn) as [f|e] eqn:Ef;
      simpl; [|discriminate].
    destruct (f x) as [x1|e] eqn:Ex; simpl; [|discriminate].
    intro H. injection H as <-. exists nn, f, x. split; assumption.
  - destruct (if a >? 0 then getitem numerical_names stage_id else Ok false)
      as [nn|e]; simpl; [|discriminate].
    destruct (block features stage_id a nn freeze_bn) as [f|e];
      simpl; [|discriminate].
    destruct (f x) as [x1|e]; simpl; [|discriminate].
    apply IH.
Qed.

Lemma last_cons (a d : tensor) l : last (a :: l) d = last l a.
Proof.
  revert a d. induction l as [|c l IH]; intros a d; [reflexivity|].
  change (last (a :: c :: l) d) with (last (c :: l) d).
  rewrite IH. symmetry. apply IH.
Qed.

Lemma stages_outputs stages :
  forall x features outputs x' features' outputs',
  ResNet2D_stages block numerical_names freeze_bn stages x features outputs
    = Ok (x', features', outputs') ->
  features' = features * 2 ^ Z.of_nat (List.length stages) /\
  exists new,
    outputs' = outputs ++ new /\
    List.length new = List.length stages /\
    x' = last new x /\
    forall j stage_id iterations o,
      nth_error stages j = Some (stage_id, iterations) ->
      0 < iterations ->
      nth_error new j = Some o ->
      exists numerical_name f x0,
        block (features * 2 ^ Z.of_nat j) stage_id (iterations - 1)
          numerical_name freeze_bn = Ok f /\
        f x0 = Ok o.
Proof.
  induction stages as [|[stage_id iterations] stages IH];
    intros x features outputs x' features' outputs';
    cbn [ResNet2D_stages].
  - intro H. injection H as <- <- <-. split; [cbn; lia|].
    exists []. rewrite app_nil_r. repeat split.
    intros j ? ? ? Hj. destruct j; discriminate Hj.
  - destruct (ResNet2D_blocks block numerical_names freeze_bn features
                stage_id (range iterations) x) as [y|e] eqn:Ey;
      cbn [bind]; [|discriminate].
    intro H. apply IH in H. destruct H as [Hf [new [Ho [Hl [Hx Hn]]]]].
    split.
    { rewrite Hf. cbn [List.length].
      rewrite Nat2Z.inj_succ, Z.pow_succ_r by lia. ring. }
    exists (y :: new). split; [rewrite Ho, <- app_assoc; reflexivity|].
    split; [cbn [List.length]; congruence|].
    split; [rewrite last_cons; exact Hx|].
    intros [|j] sid n o Hj Hpos Ho'.
    + cbn in Hj, Ho'. injection Hj as <- <-. injection Ho' as <-.
      rewrite range_last in Ey by exact Hpos.
      apply blocks_last in Ey.
      replace (features * 2 ^ Z.of_nat 0) with features by (cbn; lia).
      exact Ey.
    + cbn [nth_error] in Hj, Ho'.
      destruct (Hn j sid n o Hj Hpos Ho') as [nn [f [x0 [Hb Hfx]]]].
      exists nn, f, x0. split; [|exact Hfx].
      rewrite <- Hb. f_equal.
      rewrite Nat2Z.inj_succ, Z.pow_succ_r by lia. ring.
Qed.

Lemma enumerate_nth {A : Type} (l : list A) :
  forall k i a,
  nth_error l i = Some a ->
  nth_error (combine (map Z.of_nat (seq k (List.length l))) l) i
  = Some (Z.of_nat (k + i), a).
Proof.
  induction l as [|c l IH]; intros k i a Hi.
  - destruct i; discriminate Hi.
  - destruct i as [|i]; cbn in *.
    + injection Hi as <-. rewrite Nat.add_0_r. reflexivity.
    + rewrite (IH (S k) i a Hi). do 2 f_equal. lia.
Qed.

Lemma enumerate_seq {A : Type} (l : list A) :
  enumerate l = combine (map Z.of_nat (seq 0 (List.length l))) l.
Proof. unfold enumerate, range, len. rewrite Nat2Z.id. reflexivity. Qed.

End Loops.

(** ** What the opaque blocks record *)

Section OpaqueCalls.

Variable kind : block_kind.
Variable residual_blocks : list Z.
Variable numerical_names : list bool.
Variable freeze_bn : bool.

Local Notation designed :=
  (designed_call kind residual_blocks numerical_names freeze_bn).

Lemma opaque_blocks_calls features stage_id ids :
  forall x y,
  ResNet2D_blocks (opaque_block kind) numerical_names freeze_bn features
    stage_id ids x = Ok y ->
  exists calls,
    layers_of y = layers_of x ++ calls /\
    Forall
      (fun l =>
         exists b numerical_name,
           In b ids /\
           l = Residual2D kind features stage_id b numerical_name freeze_bn /\
           (if b >? 0
            then getitem numerical_names stage_id = Ok numerical_name
            else numerical_name = false))
      calls.
Proof.
  induction ids as [|a ids IH]; intros x y; cbn [ResNet2D_blocks].
  - intro H. injection H as <-. exists []. rewrite app_nil_r.
    split; [reflexivity|constructor].
  - destruct (if a >? 0 then getitem numerical_names stage_id else Ok false)
      as [nn|e] eqn:En; cbn [bind opaque_block]; [|discriminate].
    intro H. apply IH in H. destruct H as [calls [Hl Hc]].
    exists (Residual2D kind features stage_id a nn freeze_bn :: calls).
    split.
    + rewrite Hl. cbn [layers_of]. rewrite <- app_assoc. reflexivity.
    + constructor.
      * exists a, nn. split; [left; reflexivity|]. split; [reflexivity|].
        destruct (a >? 0); [exact En|congruence].
      * eapply Forall_impl; [|exact Hc].
        intros l [b [nn' [Hb Hrest]]]. exists b, nn'.
        split; [right; exact Hb|exact Hrest].
Qed.

Lemma opaque_stages_designed l :
  forall pre x outputs x' features' outputs',
  residual_blocks = pre ++ l ->
  ResNet2D_stages (opaque_block kind) numerical_names freeze_bn
    (combine (map Z.of_nat (seq (List.length pre) (List.length l))) l)
    x (64 * 2 ^ Z.of_nat (List.length pre)) outputs
    = Ok (x', features', outputs') ->
  Forall designed (layers_of x) ->
  Forall (fun o => Forall designed (layers_of o)) outputs ->
  Forall designed (layers_of x') /\
  Forall (fun o => Forall designed (layers_of o)) outputs'.
Proof.
  induction l as [|n l IH]; intros pre x outputs x' features' outputs' Hrb;
    cbn [List.length seq map combine ResNet2D_stages].
  - intro H. injection H as <- _ <-. split; assumption.
  - destruct (ResNet2D_blocks (opaque_block kind) numerical_names freeze_bn
                (64 * 2 ^ Z.of_nat (List.length pre))
                (Z.of_nat (List.length pre)) (range n) x)
      as [y|e] eqn:Ey; cbn [bind]; [|discriminate].
    intros H Hx Ho.
    apply opaque_blocks_calls in Ey. destruct Ey as [calls [Hl Hc]].
    assert (Hy : Forall designed (layers_of y)).
    { rewrite Hl. apply Forall_app. split; [exact Hx|].
      eapply Forall_impl; [|exact Hc].
      intros c [b [nn [Hb [-> Hflag]]]].
      apply in_range in Hb.
      unfold designed_call.
      split; [reflexivity|]. split; [reflexivity|].
      split; [lia|]. split.
      - exists n. split; [|exact Hb].
        rewrite Nat2Z.id, Hrb, nth_error_app2 by lia.
        rewrite Nat.sub_diag. reflexivity.
      - split; [reflexivity|exact Hflag]. }
    apply (IH (pre ++ [n]) y (outputs ++ [y]) x' features' outputs').
    + rewrite <- app_assoc. exact Hrb.
    + rewrite length_app, Nat.add_1_r. cbn [List.length].
      rewrite <- H. f_equal.
      rewrite Nat2Z.inj_succ, Z.pow_succ_r by lia. ring.
    + exact Hy.
    + apply Forall_app. split; [exact Ho|]. constructor; [exact Hy|constructor].
Qed.

End OpaqueCalls.

Lemma default_numerical_names (residual_blocks : list Z) :
  list_repeat true (len residual_blocks) =
  repeat true (List.length residual_blocks).
Proof. unfold list_repeat, len. rewrite Nat2Z.id. reflexivity. Qed.

Lemma opaque_model_designed
    df shape residual_blocks kind include_top classes freeze_bn
    numerical_names m :
  ResNet2D df (Input shape) residual_blocks (opaque_block kind) include_top
    classes freeze_bn numerical_names = Ok m ->
  Forall
    (designed_call kind residual_blocks
       (numerical_names_or_default residual_blocks numerical_names) freeze_bn)
    (model_layers m).
Proof.
  unfold ResNet2D.
  replace (match numerical_names with
           | Some l => l
           | None => list_repeat true (len residual_blocks)
           end)
    with (numerical_names_or_default residual_blocks numerical_names)
    by (destruct numerical_names;
        [reflexivity | symmetry; apply default_numerical_names]).
  rewrite enumerate_seq.
  destruct (ResNet2D_stages _ _ _ _ _ _ _) as [[[x features] outs]|e] eqn:E;
    cbn [bind]; [|discriminate].
  apply (opaque_stages_designed kind residual_blocks _ freeze_bn
           residual_blocks [] _ [] x features outs eq_refl) in E.
  - destruct E as [Hx Ho].
    destruct include_top.
    + destruct (classes >? 0); [|discriminate].
      intro H. injection H as <-. unfold model_layers.
      cbn [outputs layers_of].
      apply Forall_app. split; [apply Forall_app; split; [exact Hx|]|];
        repeat constructor.
    + intro H. injection H as <-. unfold model_layers. cbn [outputs].
      clear - Ho. induction Ho as [|o os Ho _ IH]; cbn; [constructor|].
      apply Forall_app. split; assumption.
  - cbn. repeat constructor.
  - constructor.
Qed.

(** ** Parameter validation *)

(** C4, as far as the code goes: with [include_top] true and
    [classes <= 0] no model is built, and once the stages are built it is
    the assertion [classes > 0] that fails. *)
Theorem classes_asserted_with_top
    df inputs residual_blocks block classes freeze_bn numerical_names :
  classes <= 0 ->
  (forall m,
     ResNet2D df inputs residual_blocks block true classes freeze_bn
       numerical_names <> Ok m) /\
  (forall st,
     ResNet2D_stages block
       (match numerical_names with
        | None => list_repeat true (len residual_blocks)
        | Some l => l
        end)
       freeze_bn (enumerate residual_blocks)
       (ResNet2D_stem df inputs freeze_bn) 64 [] = Ok st ->
     ResNet2D df inputs residual_blocks block true classes freeze_bn
       numerical_names = Raise AssertionError).
Proof.
  intro Hc.
  assert (Hg : (classes >? 0) = false).
  { rewrite Z.gtb_ltb. apply Z.ltb_ge. exact Hc. }
  unfold ResNet2D. split.
  - intro m.
    destruct (ResNet2D_stages _ _ _ _ _ _ _) as [[[x features] outs]|e];
      cbn [bind]; [rewrite Hg|]; discriminate.
  - intros [[x features] outs] ->. cbn [bind]. rewrite Hg. reflexivity.
Qed.

(** C4 as worded fails without the top: [classes = 0] and
    [include_top=False] build the four-output ResNet18 body. *)
Lemma classes_unchecked_without_top :
  0 <= 0 /\
  exists m,
    ResNet2D channels_last (Input [224; 224; 3]) [2; 2; 2; 2]
      (opaque_block Basic) false 0 true None = Ok m /\
    exists o1 o2 o3 o4, outputs m = OutputList [o1; o2; o3; o4].
Proof.
  split; [lia|].
  eexists. split; [reflexivity|].
  do 4 eexists. reflexivity.
Qed.

(** ** Filters *)

(** C7: the filters value starts at 64 and is doubled once after every
    stage, so after the loop it is [64 * 2 ^ len(residual_blocks)]; every
    block the model is built from belongs to a stage [i] of
    [residual_blocks] and was constructed with filters [64 * 2 ^ i], hence
    two blocks of one stage have the same filters. *)
Theorem filters_double_per_stage
    df shape residual_blocks kind include_top classes freeze_bn
    numerical_names m
    k1 filters1 stage1 block1 flag1 fb1 k2 filters2 stage2 block2 flag2 fb2 :
  ResNet2D df (Input shape) residual_blocks (opaque_block kind) include_top
    classes freeze_bn numerical_names = Ok m ->
  In (Residual2D k1 filters1 stage1 block1 flag1 fb1) (model_layers m) ->
  In (Residual2D k2 filters2 stage2 block2 flag2 fb2) (model_layers m) ->
  0 <= stage1 < len residual_blocks /\
  filters1 = 64 * 2 ^ stage1 /\
  (stage1 = stage2 -> filters1 = filters2) /\
  (forall block names x x' features' outs,
     ResNet2D_stages block names freeze_bn (enumerate residual_blocks) x 64 []
       = Ok (x', features', outs) ->
     features' = 64 * 2 ^ len residual_blocks).
Proof.
  intros Hm H1 H2.
  pose proof (opaque_model_designed _ _ _ _ _ _ _ _ _ Hm) as Hd.
  rewrite Forall_forall in Hd.
  pose proof (Hd _ H1) as D1. pose proof (Hd _ H2) as D2.
  cbn [designed_call] in D1, D2.
  destruct D1 as [_ [_ [Hs1 [[n1 [Hn1 _]] [Hf1 _]]]]].
  destruct D2 as [_ [_ [_ [_ [Hf2 _]]]]].
  split.
  { assert (Hlt : (Z.to_nat stage1 < List.length residual_blocks)%nat).
    { apply nth_error_Some. congruence. }
    unfold len. lia. }
  split; [exact Hf1|].
  split; [intros <-; congruence|].
  intros block names x x' features' outs Hst.
  apply stages_outputs in Hst. destruct Hst as [Hf _].
  rewrite Hf, enumerate_seq.
  rewrite length_combine, length_map, length_seq, Nat.min_id.
  reflexivity.
Qed.

(** ** Outputs *)


(** ** Numerical names *)

Lemma getitem_repeat_true n i b :
  getitem (repeat true n) i = Ok b -> b = true.
Proof.
  unfold getitem.
  destruct ((if i <? 0 then i + len (repeat true n) else i) <? 0);
    [discriminate|].
  destruct (nth_error _ _) as [a|] eqn:E; [|discriminate].
  intro H. injection H as <-.
  apply nth_error_In in E. apply repeat_spec in E. exact E.
Qed.

(** C9: [numerical_names=None] stands for a list of [True] as long as
    [residual_blocks]; the [numerical_name] of every block the model is
    built from is [block_id > 0 and numerical_names[stage_id]], so the
    first block of a stage is never numerically named, and under the
    default every later block is. *)
Theorem numerical_name_of_blocks
    df shape residual_blocks kind include_top classes freeze_bn
    numerical_names m k filters stage block flag fb :
  ResNet2D df (Input shape) residual_blocks (opaque_block kind) include_top
    classes freeze_bn numerical_names = Ok m ->
  In (Residual2D k filters stage block flag fb) (model_layers m) ->
  (forall inputs0 any_block,
     ResNet2D df inputs0 residual_blocks any_block include_top classes
       freeze_bn None =
     ResNet2D df inputs0 residual_blocks any_block include_top classes
       freeze_bn (Some (repeat true (List.length residual_blocks)))) /\
  (if block >? 0
   then getitem (numerical_names_or_default residual_blocks numerical_names)
          stage = Ok flag
   else flag = false) /\
  (block = 0 -> flag = false) /\
  (numerical_names = None -> 0 < block -> flag = true).
Proof.
  intros Hm Hin.
  pose proof (opaque_model_designed _ _ _ _ _ _ _ _ _ Hm) as Hd.
  rewrite Forall_forall in Hd. specialize (Hd _ Hin).
  cbn [designed_call] in Hd.
  destruct Hd as [_ [_ [_ [_ [_ Hflag]]]]].
  split.
  { intros inputs0 any_block. unfold ResNet2D.
    rewrite default_numerical_names. reflexivity. }
  split; [exact Hflag|].
  split.
  - intros ->. exact Hflag.
  - intros -> Hb. apply Z.gtb_lt in Hb. rewrite Hb in Hflag.
    apply getitem_repeat_true in Hflag. exact Hflag.
Qed.

(** ** The theorems at concrete inputs *)

(** The first block of stage 1, letter names, 64 filters, on a 224x3 input:
    stride 2 on [res3a_branch2a] and on [res3a_branch1]. *)
Lemma default_stride_placement_witness :
  exists f1 f2,
    basic_1d channels_last 64 1 0 3 false None false = Ok f1 /\
    bottleneck_1d channels_last 64 1 0 3 false None false = Ok f2 /\
    exists d v rest1 rest2,
      (0 <> 0 \/ 1 = 0 -> d = 1) /\
      (~ (0 <> 0 \/ 1 = 0) -> d = 2) /\
      f1 (Input [224; 3]) =
        Ok (add_relu v
              (stack
                 (ZeroPadding1D 1 (template_name "padding" v "_branch2a")
                  :: Conv1D 64 3 (Some d) false
                       (template_name "res" v "_branch2a") he_normal
                  :: rest1) (Input [224; 3]))
              (stack
                 [Conv1D 64 1 (Some d) false
                    (template_name "res" v "_branch1") he_normal;
                  BatchNormalization (axis v) "1e-5" false
                    (template_name "bn" v "_branch1")] (Input [224; 3]))) /\
      f2 (Input [224; 3]) =
        Ok (add_relu v
              (stack
                 (Conv1D 64 1 (Some d) false
                    (template_name "res" v "_branch2a") he_normal
                  :: rest2) (Input [224; 3]))
              (stack
                 [Conv1D 256 1 (Some d) false
                    (template_name "res" v "_branch1") he_normal;
                  BatchNormalization (axis v) "1e-5" false
                    (template_name "bn" v "_branch1")] (Input [224; 3]))).
Proof.
  do 2 eexists. split; [reflexivity|]. split; [reflexivity|].
  exact (default_stride_placement channels_last 64 1 0 3 false false _ _
           (Input [224; 3]) eq_refl eq_refl).
Defined.

(** The same block: both shortcuts are projections of the input. *)
Lemma projection_shortcut_witness :
  exists f1 f2,
    basic_1d channels_last 64 1 0 3 false None false = Ok f1 /\
    bottleneck_1d channels_last 64 1 0 3 false None false = Ok f2 /\
    exists v main1 main2 shortcut1 shortcut2,
      f1 (Input [224; 3]) = Ok (add_relu v main1 shortcut1) /\
      f2 (Input [224; 3]) =
        Ok (add_relu v
              (stack
                 [Conv1D 256 1 None false
                    (template_name "res" v "_branch2c") he_normal;
                  BatchNormalization (axis v) "1e-5" false
                    (template_name "bn" v "_branch2c")] main2)
              shortcut2) /\
      (0 = 0 ->
       shortcut1 =
         stack
           [Conv1D 64 1 (Some (stride v)) false
              (template_name "res" v "_branch1") he_normal;
            BatchNormalization (axis v) "1e-5" false
              (template_name "bn" v "_branch1")] (Input [224; 3]) /\
       shortcut2 =
         stack
           [Conv1D 256 1 (Some (stride v)) false
              (template_name "res" v "_branch1") he_normal;
            BatchNormalization (axis v) "1e-5" false
              (template_name "bn" v "_branch1")] (Input [224; 3])) /\
      (0 <> 0 <-> shortcut1 = Input [224; 3]) /\
      (0 <> 0 <-> shortcut2 = Input [224; 3]).
Proof.
  do 2 eexists. split; [reflexivity|]. split; [reflexivity|].
  exact (projection_shortcut channels_last 64 1 0 3 false None false _ _
           (Input [224; 3]) eq_refl eq_refl).
Defined.


(** Stage 1: block 2 named by letter is ["3c"], block 2 named by number is
    ["3b2"]. *)
Lemma layer_names_witness :
  (exists v,
     basic_1d_locals channels_last 1 2 false None = Ok v /\
     bottleneck_1d_locals channels_last 1 2 false None = Ok v /\
     stage_char v = lit "3" /\ block_char v = lit "c" /\
     block_char_as_specified 2 false (block_char v)) /\
  (exists v,
     basic_1d_locals channels_last 1 2 true None = Ok v /\
     stage_char v = lit "3" /\ block_char v = lit "b2" /\
     block_char_as_specified 2 true (block_char v)).
Proof.
  split.
  - destruct (layer_names channels_last 1 2 false None) as [He Hv].
    destruct He as [v Ev]; [right; lia|].
    destruct (Hv v Ev) as [Hb [Hs [Hc [Hl _]]]].
    exists v. split; [exact Ev|]. split; [exact Hb|].
    split; [exact Hs|]. split; [exact Hc|]. apply Hl. lia.
  - destruct (layer_names channels_last 1 2 true None) as [He Hv].
    destruct He as [v Ev]; [left; split; [lia|reflexivity]|].
    destruct (Hv v Ev) as [_ [Hs [Hc [Hl _]]]].
    exists v. split; [exact Ev|]. split; [exact Hs|].
    split; [exact Hc|]. apply Hl. lia.
Defined.

(** ResNet18 with the top and no class is refused by the assertion. *)
Lemma classes_asserted_with_top_witness :
  0 <= 0 /\
  (forall m,
     ResNet2D channels_last (Input [224; 224; 3]) [2; 2; 2; 2]
       (opaque_block Basic) true 0 true None <> Ok m) /\
  ResNet2D channels_last (Input [224; 224; 3]) [2; 2; 2; 2]
    (opaque_block Basic) true 0 true None = Raise AssertionError.
Proof.
  split; [lia|].
  destruct (classes_asserted_with_top channels_last (Input [224; 224; 3])
              [2; 2; 2; 2] (opaque_block Basic) 0 true None) as [Hn Ha];
    [lia|].
  split; [exact Hn|].
  eapply Ha. reflexivity.
Defined.

(** The body of ResNet18: the second block of stage 1 has 128 filters, as
    has the first. *)
Lemma filters_double_per_stage_witness :
  exists m,
    ResNet2D channels_last (Input [224; 224; 3]) [2; 2; 2; 2]
      (opaque_block Basic) false 1000 false None = Ok m /\
    In (Residual2D Basic 128 1 1 true false) (model_layers m) /\
    In (Residual2D Basic 128 1 0 false false) (model_layers m) /\
    0 <= 1 < len [2; 2; 2; 2] /\
    128 = 64 * 2 ^ 1 /\
    (1 = 1 -> 128 = 128) /\
    (forall block names x x' features' outs,
       ResNet2D_stages block names false (enumerate [2; 2; 2; 2]) x 64 []
         = Ok (x', features', outs) ->
       features' = 64 * 2 ^ len [2; 2; 2; 2]).
Proof.
  eexists. split; [reflexivity|].
  split; [cbn; tauto|]. split; [cbn; tauto|].
  eapply (filters_double_per_stage channels_last [224; 224; 3] [2; 2; 2; 2]
            Basic false 1000 false None _
            Basic 128 1 1 true false Basic 128 1 0 false false eq_refl);
    cbn; tauto.
Defined.


(** The body of ResNet18 under the default names: the first block of
    stage 0 is named by letter, the second by number. *)
Lemma numerical_name_of_blocks_witness :
  exists m,
    ResNet2D channels_last (Input [224; 224; 3]) [2; 2; 2; 2]
      (opaque_block Basic) false 1000 false None = Ok m /\
    In (Residual2D Basic 64 0 0 false false) (model_layers m) /\
    In (Residual2D Basic 64 0 1 true false) (model_layers m) /\
    (0 = 0 -> false = false) /\
    (@None (list bool) = None -> 0 < 1 -> true = true).
Proof.
  eexists. split; [reflexivity|].
  split; [cbn; tauto|]. split; [cbn; tauto|].
  split.
  - eapply (numerical_name_of_blocks channels_last [224; 224; 3]
              [2; 2; 2; 2] Basic false 1000 false None _
              Basic 64 0 0 false false eq_refl).
    cbn; tauto.
  - eapply (numerical_name_of_blocks channels_last [224; 224; 3]
              [2; 2; 2; 2] Basic false 1000 false None _
              Basic 64 0 1 true false eq_refl).
    cbn; tauto.
Defined.

(** ** When the block constructors return *)

Lemma chr_value_error i :
  -2147483648 <= i <= 2147483647 -> ~ 0 <= i < 1114112 ->
  chr i = Raise ValueError.
Proof.
  intros H Hn. unfold chr.
  replace ((i <? -2147483648) || (2147483647 <? i)) with false
    by (symmetry; apply orb_false_intro; apply Z.ltb_ge; lia).
  destruct ((0 <=? i) && (i <? 1114112)) eqn:R; [|reflexivity].
  apply andb_prop in R. destruct R as [R1 R2].
  apply Z.leb_le in R1. apply Z.ltb_lt in R2. lia.
Qed.

Lemma chr_overflow i :
  i < -2147483648 \/ 2147483647 < i -> chr i = Raise OverflowError.
Proof.
  intro H. unfold chr.
  replace ((i <? -2147483648) || (2147483647 <? i)) with true;
    [reflexivity|].
  symmetry. apply orb_true_iff. rewrite !Z.ltb_lt. exact H.
Qed.

(** For stage and block numbers that [str] converts (at most 4000 digits
    here), both constructors return a block whenever the block is named by
    number ([block > 0] with [numerical_name]) or [ord('a') + block] is a
    code point.  A block named by letter outside that range makes both
    raise what [chr] raises: [ValueError] while [ord('a') + block] fits a
    C int, [OverflowError] beyond. *)
Theorem block_constructors_return
    df filters stage block kernel_size numerical_name given freeze_bn :
  (Z.abs (stage + 2) < 10 ^ 4000 -> Z.abs block < 10 ^ 4000 ->
   (0 < block /\ numerical_name = true) \/ -97 <= block < 1114015 ->
   exists f1 f2,
     basic_1d df filters stage block kernel_size numerical_name given
       freeze_bn = Ok f1 /\
     bottleneck_1d df filters stage block kernel_size numerical_name given
       freeze_bn = Ok f2) /\
  (~ (0 < block /\ numerical_name = true) ->
   -2147483745 <= block < -97 \/ 1114015 <= block <= 2147483550 ->
   basic_1d df filters stage block kernel_size numerical_name given freeze_bn
     = Raise ValueError /\
   bottleneck_1d df filters stage block kernel_size numerical_name given
     freeze_bn = Raise ValueError) /\
  (~ (0 < block /\ numerical_name = true) ->
   block < -2147483745 \/ 2147483550 < block ->
   basic_1d df filters stage block kernel_size numerical_name given freeze_bn
     = Raise OverflowError /\
   bottleneck_1d df filters stage block kernel_size numerical_name given
     freeze_bn = Raise OverflowError).
Proof.
  unfold basic_1d, bottleneck_1d, basic_1d_locals, bottleneck_1d_locals.
  change (ord "a") with 97.
  destruct ((block >? 0) && numerical_name) eqn:E.
  - apply andb_prop in E. destruct E as [Eb En].
    apply Z.gtb_lt in Eb.
    split; [|split].
    + intros _ _ _. do 2 eexists. split; reflexivity.
    + intros H _. exfalso. apply H. split; [exact Eb|exact En].
    + intros H _. exfalso. apply H. split; [exact Eb|exact En].
  - assert (Hl : ~ (0 < block /\ numerical_name = true)).
    { intros [Hb Hn]. subst numerical_name. rewrite andb_true_r in E.
      rewrite Z.gtb_ltb, Z.ltb_ge in E. lia. }
    split; [|split].
    + intros _ _ [H | H]; [contradiction|].
      rewrite chr_in_range by lia.
      do 2 eexists. split; reflexivity.
    + intros _ H. rewrite chr_value_error by lia. split; reflexivity.
    + intros _ H. rewrite chr_overflow by lia. split; reflexivity.
Qed.

(** Block 30 named by number is built; block -98 named by letter asks for
    [chr(-1)], block [2**31 - 97] for [chr(2**31)]. *)
Lemma block_constructors_return_witness :
  (exists f1 f2,
     basic_1d channels_last 64 2 30 3 true None false = Ok f1 /\
     bottleneck_1d channels_last 64 2 30 3 true None false = Ok f2) /\
  (basic_1d channels_last 64 2 (-98) 3 false None false = Raise ValueError /\
   bottleneck_1d channels_last 64 2 (-98) 3 false None false
     = Raise ValueError) /\
  (basic_1d channels_last 64 2 2147483551 3 false None false
     = Raise OverflowError /\
   bottleneck_1d channels_last 64 2 2147483551 3 false None false
     = Raise OverflowError).
Proof.
  split; [|split].
  - apply (block_constructors_return channels_last 64 2 30 3 true None false).
    + vm_compute. reflexivity.
    + vm_compute. reflexivity.
    + left. split; [lia|reflexivity].
  - apply (block_constructors_return channels_last 64 2 (-98) 3 false None
             false).
    + intros [_ H]. discriminate H.
    + left. lia.
  - apply (block_constructors_return channels_last 64 2 2147483551 3 false
             None false).
    + intros [_ H]. discriminate H.
    + right. lia.
Defined.

(** ** Names tell layers apart *)

Lemma map_injective {A B : Type} (f : A -> B) :
  (forall a b, f a = f b -> a = b) ->
  forall l l', map f l = map f l' -> l = l'.
Proof.
  intros Hf l. induction l as [|a l IH]; intros [|b l'] H;
    try discriminate H; [reflexivity|].
  cbn in H. injection H as Ha Hl. f_equal; [apply Hf; exact Ha|].
  apply IH. exact Hl.
Qed.

Lemma lit_inj a b : lit a = lit b -> a = b.
Proof.
  unfold lit. intro H. apply map_injective in H.
  - rewrite <- (string_of_list_ascii_of_string a),
      <- (string_of_list_ascii_of_string b), H.
    reflexivity.
  - intros c d Hcd. apply N2Z.inj in Hcd.
    rewrite <- (ascii_N_embedding c), <- (ascii_N_embedding d), Hcd.
    reflexivity.
Qed.

Lemma prefix_inj p1 p2 (x y : str) :
  In p1 prefixes -> In p2 prefixes ->
  lit p1 ++ x = lit p2 ++ y -> p1 = p2 /\ x = y.
Proof.
  unfold prefixes. cbn [In].
  intros [<- | [<- | [<- | []]]] [<- | [<- | [<- | []]]] H;
    try (split; [reflexivity | exact (app_inv_head _ _ _ H)]);
    cbn in H; discriminate H.
Qed.

Lemma template_name_inj p1 q1 p2 q2 v :
  In p1 prefixes -> In p2 prefixes ->
  template_name p1 v q1 = template_name p2 v q2 ->
  p1 = p2 /\ q1 = q2.
Proof.
  intros H1 H2 H. unfold template_name in H.
  apply (prefix_inj _ _ _ _ H1 H2) in H. destruct H as [Hp H].
  split; [exact Hp|].
  apply app_inv_head in H. apply app_inv_head in H.
  apply lit_inj. exact H.
Qed.

Lemma named_alike p1 q1 p2 q2 v :
  In p1 prefixes -> In p2 prefixes ->
  Some (template_name p1 v q1) = Some (template_name p2 v q2) ->
  p1 = p2 /\ q1 = q2.
Proof.
  intros H1 H2 H. apply (template_name_inj _ _ _ _ v H1 H2). congruence.
Qed.

Ltac different_names :=
  match goal with
  | H : Some (template_name _ _ _) = Some (template_name _ _ _) |- _ =>
      apply named_alike in H;
      [ destruct H as [Hp Hq]; (discriminate Hp || discriminate Hq)
      | unfold prefixes; cbn [In]; tauto
      | unfold prefixes; cbn [In]; tauto ]
  end.

(** The layers of one block have pairwise different names, whatever the
    stage and block characters are. *)
Theorem block_layer_names_differ
    filters block kernel_size freeze_bn v shape y1 y2 :
  basic_1d_f filters block kernel_size freeze_bn v (Input shape) = Ok y1 ->
  bottleneck_1d_f filters block kernel_size freeze_bn v (Input shape)
    = Ok y2 ->
  NoDup (map layer_name (layers_of y1)) /\
  NoDup (map layer_name (layers_of y2)).
Proof.
  rewrite basic_1d_f_graph, bottleneck_1d_f_graph.
  intros H1 H2. injection H1 as <-. injection H2 as <-.
  unfold add_relu, stack, basic_1d_main, bottleneck_1d_main, projection.
  destruct (block =? 0); cbn [fold_left layers_of app map layer_name]; split;
    repeat (constructor;
            [ cbn [In]; intro H;
              repeat (destruct H as [H | H]; [different_names|]);
              exact H | ]);
    constructor.
Qed.

Lemma uint_numeral d :
  Forall numeral_char (lit (NilEmpty.string_of_uint d)).
Proof.
  induction d; cbn [NilEmpty.string_of_uint];
    try (constructor; [right; cbn; lia | exact IHd]).
  constructor.
Qed.

Lemma str_of_int_numeral z : Forall numeral_char (str_of_int z).
Proof.
  assert (Hu : forall d, Forall numeral_char (lit (NilZero.string_of_uint d))).
  { intro d. destruct d; try apply uint_numeral.
    constructor; [right; cbn; lia | constructor]. }
  unfold str_of_int. destruct (Z.to_int z) as [d|d];
    cbn [NilZero.string_of_int]; [apply Hu|].
  constructor; [left; reflexivity | apply Hu].
Qed.

Lemma str_of_int_nonempty z : str_of_int z <> [].
Proof.
  unfold str_of_int. destruct (Z.to_int z) as [d|d];
    cbn [NilZero.string_of_int]; [|discriminate].
  destruct d; discriminate.
Qed.

Lemma str_of_int_inj a b : str_of_int a = str_of_int b -> a = b.
Proof.
  unfold str_of_int. intro H. apply lit_inj in H.
  apply DecimalZ.to_int_inj.
  assert (Hn : forall z, Z.to_int z <> Decimal.Pos Decimal.Nil /\
                         Z.to_int z <> Decimal.Neg Decimal.Nil).
  { intros [|p|p]; cbn; split; try discriminate;
      intro E; injection E as E; exact (DecimalPos.Unsigned.to_uint_nonnil p E). }
  assert (Ha := NilZero.isi (Z.to_int a) (proj1 (Hn a)) (proj2 (Hn a))).
  assert (Hb := NilZero.isi (Z.to_int b) (proj1 (Hn b)) (proj2 (Hn b))).
  rewrite H in Ha. congruence.
Qed.

Lemma numeral_split s1 :
  forall s2 r1 r2,
  Forall numeral_char s1 -> Forall numeral_char s2 ->
  ends_numeral r1 -> ends_numeral r2 ->
  s1 ++ r1 = s2 ++ r2 -> s1 = s2 /\ r1 = r2.
Proof.
  induction s1 as [|c s1 IH]; intros [|c2 s2] r1 r2 H1 H2 E1 E2 H;
    cbn [app] in H.
  - split; [reflexivity|exact H].
  - subst r1. cbn in E1. inversion H2; subst. contradiction.
  - subst r2. cbn in E2. inversion H1; subst. contradiction.
  - injection H as -> H. inversion H1; subst. inversion H2; subst.
    destruct (IH s2 r1 r2) as [-> ->]; try assumption.
    split; reflexivity.
Qed.

Lemma suffix_ends_numeral q : In q suffixes -> ends_numeral (lit q).
Proof.
  unfold suffixes. cbn [In].
  intros H; repeat (destruct H as [<- | H]; [cbn; try exact I;
                                              unfold numeral_char; lia|]).
  contradiction.
Qed.

(** Two layer names built for non-negative blocks are equal only when they
    come from the same template, the same stage and the same block: within
    a network made of these blocks (each stage and block number used once)
    no layer name is used twice. *)
Theorem names_identify_blocks
    df1 stage1 block1 flag1 given1 v1 p1 q1
    df2 stage2 block2 flag2 given2 v2 p2 q2 :
  basic_1d_locals df1 stage1 block1 flag1 given1 = Ok v1 ->
  basic_1d_locals df2 stage2 block2 flag2 given2 = Ok v2 ->
  0 <= block1 -> 0 <= block2 ->
  In p1 prefixes -> In p2 prefixes ->
  In q1 suffixes -> In q2 suffixes ->
  template_name p1 v1 q1 = template_name p2 v2 q2 ->
  p1 = p2 /\ q1 = q2 /\ stage1 = stage2 /\ block1 = block2.
Proof.
  intros Hv1 Hv2 Hb1 Hb2 Hp1 Hp2 Hq1 Hq2 H.
  destruct (locals_inv _ _ _ _ _ _ Hv1) as [_ [Hs1 Hc1]].
  destruct (locals_inv _ _ _ _ _ _ Hv2) as [_ [Hs2 Hc2]].
  unfold template_name in H.
  apply (prefix_inj _ _ _ _ Hp1 Hp2) in H. destruct H as [Hp H].
  rewrite Hs1, Hs2 in H.
  pose proof (suffix_ends_numeral _ Hq1) as E1.
  pose proof (suffix_ends_numeral _ Hq2) as E2.
  assert (Hc : forall block flag (c : str) q,
             0 <= block ->
             (if (block >? 0) && flag
              then c = lit "b" ++ str_of_int block
              else c = [97 + block] /\ 0 <= 97 + block < 1114112) ->
             ends_numeral (c ++ lit q)).
  { intros block flag c q Hb Hc.
    destruct ((block >? 0) && flag).
    - subst c. change (lit "b") with [98].
      unfold ends_numeral. cbn [app]. unfold numeral_char. lia.
    - destruct Hc as [-> _].
      unfold ends_numeral. cbn [app]. unfold numeral_char. lia. }
  apply numeral_split in H;
    [ | apply str_of_int_numeral | apply str_of_int_numeral
      | exact (Hc _ _ _ _ Hb1 Hc1) | exact (Hc _ _ _ _ Hb2 Hc2) ].
  destruct H as [Hs H]. apply str_of_int_inj in Hs.
  split; [exact Hp|].
  destruct ((block1 >? 0) && flag1) eqn:M1;
    destruct ((block2 >? 0) && flag2) eqn:M2.
  - rewrite Hc1, Hc2 in H. change (lit "b") with [98] in H. cbn [app] in H.
    injection H as H.
    apply numeral_split in H; try apply str_of_int_numeral; try assumption.
    destruct H as [Hb Hq]. apply str_of_int_inj in Hb. apply lit_inj in Hq.
    repeat split; [exact Hq | lia | exact Hb].
  - exfalso. destruct Hc2 as [Hc2 _]. rewrite Hc1, Hc2 in H.
    change (lit "b") with [98] in H. cbn [app] in H. injection H as _ H.
    pose proof (str_of_int_numeral block1) as Hn.
    pose proof (str_of_int_nonempty block1) as Hne.
    destruct (str_of_int block1) as [|c s]; [now apply Hne|].
    rewrite <- H in E2. cbn in E2. inversion Hn; subst. contradiction.
  - exfalso. destruct Hc1 as [Hc1 _]. rewrite Hc1, Hc2 in H.
    change (lit "b") with [98] in H. cbn [app] in H. injection H as _ H.
    pose proof (str_of_int_numeral block2) as Hn.
    pose proof (str_of_int_nonempty block2) as Hne.
    destruct (str_of_int block2) as [|c s]; [now apply Hne|].
    rewrite H in E1. cbn in E1. inversion Hn; subst. contradiction.
  - destruct Hc1 as [Hc1 _]. destruct Hc2 as [Hc2 _]. rewrite Hc1, Hc2 in H.
    cbn [app] in H.
    assert (Hb : 97 + block1 = 97 + block2) by congruence.
    assert (Hq : lit q1 = lit q2) by congruence.
    apply lit_inj in Hq.
    repeat split; [exact Hq | lia | lia].
Qed.

(** ** What every layer of a block is given *)

Lemma locals_axis df stage block numerical_name given v :
  basic_1d_locals df stage block numerical_name given = Ok v ->
  axis v = if str_eqb df (lit "channels_last") then -1 else 1.
Proof.
  unfold basic_1d_locals.
  destruct (if (block >? 0) && numerical_name
            then format "b{}" [str_of_int block]
            else chr (ord "a" + block)) as [c|e];
    unfold bind; intro H; [|discriminate].
  injection H as <-. reflexivity.
Qed.

(** Only the entry of a block is strided: the convolutions
    [res{s}{b}_branch2a] and [res{s}{b}_branch1] get the stride (the
    [stride] argument when it is given, whatever the stage and block, and
    the derived one otherwise); every other convolution is built without a
    [strides] argument. *)
Theorem strides_only_at_entry
    df filters stage block kernel_size numerical_name given freeze_bn
    f1 f2 shape y1 y2 c k s u n i :
  basic_1d df filters stage block kernel_size numerical_name given freeze_bn
    = Ok f1 ->
  bottleneck_1d df filters stage block kernel_size numerical_name given
    freeze_bn = Ok f2 ->
  f1 (Input shape) = Ok y1 ->
  f2 (Input shape) = Ok y2 ->
  In (Conv1D c k s u n i) (layers_of y1 ++ layers_of y2) ->
  exists v,
    basic_1d_locals df stage block numerical_name given = Ok v /\
    ((s = Some (match given with
                | Some d => d
                | None => if negb (block =? 0) || (stage =? 0) then 1 else 2
                end) /\
      (n = template_name "res" v "_branch2a" \/
       n = template_name "res" v "_branch1")) \/
     (s = None /\
      (n = template_name "res" v "_branch2b" \/
       n = template_name "res" v "_branch2c"))).
Proof.
  intros H1 H2.
  apply basic_1d_ok in H1. destruct H1 as [v [Hv ->]].
  apply bottleneck_1d_ok in H2. destruct H2 as [v' [Hv' ->]].
  rewrite <- locals_agree in Hv'. rewrite Hv in Hv'. injection Hv' as <-.
  destruct (locals_inv _ _ _ _ _ _ Hv) as [Hs _].
  rewrite basic_1d_f_graph, bottleneck_1d_f_graph.
  intros E1 E2. injection E1 as <-. injection E2 as <-.
  intro Hin. exists v. split; [exact Hv|]. rewrite <- Hs.
  unfold add_relu, stack, basic_1d_main, bottleneck_1d_main, projection
    in Hin.
  destruct (block =? 0); cbn [fold_left layers_of app In] in Hin;
    repeat (destruct Hin as [Hin | Hin];
            [ try discriminate Hin;
              injection Hin as <- <- <- <- <- <-;
              first [ left; split; [reflexivity|];
                      (left; reflexivity) || (right; reflexivity)
                    | right; split; [reflexivity|];
                      (left; reflexivity) || (right; reflexivity) ] | ]);
    contradiction.
Qed.

(** A block is made of the five layer kinds below only, and each is set
    the same way wherever it occurs: paddings pad by 1, convolutions carry
    no bias and are initialized with [he_normal], batch normalizations run
    on the channel axis of the data format (the last one for
    [channels_last], axis 1 otherwise) with epsilon [1e-5] and the caller's
    [freeze_bn], and activations are ReLUs. *)
Theorem block_layer_settings
    df filters stage block kernel_size numerical_name given freeze_bn
    f1 f2 shape y1 y2 l :
  basic_1d df filters stage block kernel_size numerical_name given freeze_bn
    = Ok f1 ->
  bottleneck_1d df filters stage block kernel_size numerical_name given
    freeze_bn = Ok f2 ->
  f1 (Input shape) = Ok y1 ->
  f2 (Input shape) = Ok y2 ->
  In l (layers_of y1 ++ layers_of y2) ->
  match l with
  | ZeroPadding1D p _ => p = 1
  | Conv1D _ _ _ use_bias _ initializer =>
      use_bias = false /\ initializer = lit "he_normal"
  | BatchNormalization a e freeze _ =>
      a = (if str_eqb df (lit "channels_last") then -1 else 1) /\
      e = "1e-5"%string /\ freeze = freeze_bn
  | Activation a _ => a = lit "relu"
  | Add _ => True
  | _ => False
  end.
Proof.
  intros H1 H2.
  apply basic_1d_ok in H1. destruct H1 as [v [Hv ->]].
  apply bottleneck_1d_ok in H2. destruct H2 as [v' [Hv' ->]].
  rewrite <- locals_agree in Hv'. rewrite Hv in Hv'. injection Hv' as <-.
  pose proof (locals_axis _ _ _ _ _ _ Hv) as Ha.
  rewrite basic_1d_f_graph, bottleneck_1d_f_graph.
  intros E1 E2. injection E1 as <-. injection E2 as <-.
  intro Hin.
  unfold add_relu, stack, basic_1d_main, bottleneck_1d_main, projection
    in Hin.
  destruct (block =? 0); cbn [fold_left layers_of app In] in Hin;
    repeat (destruct Hin as [<- | Hin];
            [ first [ exact I | reflexivity
                    | split; [reflexivity | reflexivity]
                    | split; [exact Ha | split; reflexivity] ] | ]);
    contradiction.
Qed.

(** ** How a construction ends *)

Lemma getitem_in_range {A : Type} (l : list A) i :
  0 <= i -> (Z.to_nat i < List.length l)%nat -> exists a, getitem l i = Ok a.
Proof.
  intros Hi Hl. unfold getitem.
  assert (E0 : (i <? 0) = false) by (apply Z.ltb_ge; exact Hi).
  cbv zeta. rewrite E0. cbv iota. rewrite E0.
  destruct (nth_error l (Z.to_nat i)) as [a|] eqn:E.
  - exists a. reflexivity.
  - apply nth_error_None in E. lia.
Qed.

Lemma getitem_out_of_range {A : Type} (l : list A) i :
  0 <= i -> (List.length l <= Z.to_nat i)%nat -> getitem l i = Raise IndexError.
Proof.
  intros Hi Hl. unfold getitem.
  assert (E0 : (i <? 0) = false) by (apply Z.ltb_ge; exact Hi).
  cbv zeta. rewrite E0. cbv iota. rewrite E0.
  apply nth_error_None in Hl. rewrite Hl. reflexivity.
Qed.

Lemma enumerate_in {A : Type} (l : list A) stage_id a :
  In (stage_id, a) (enumerate l) ->
  exists i, stage_id = Z.of_nat i /\ nth_error l i = Some a.
Proof.
  intro H. apply In_nth_error in H. destruct H as [i Hi].
  exists i. rewrite enumerate_seq in Hi.
  destruct (nth_error l i) as [c|] eqn:E.
  - rewrite (enumerate_nth l 0 i c E) in Hi. injection Hi as <- <-.
    split; reflexivity.
  - exfalso. apply nth_error_None in E.
    assert (Hlt : (i < List.length
                       (combine (map Z.of_nat (seq 0 (List.length l))) l))%nat).
    { apply nth_error_Some. congruence. }
    rewrite length_combine, length_map, length_seq, Nat.min_id in Hlt. lia.
Qed.

Section Outcome.

Variable block : block_constructor.
Variable numerical_names : list bool.
Variable freeze_bn : bool.
Hypothesis block_total : never_raises block.

Lemma blocks_return features stage_id ids :
  (0 <= stage_id /\ (Z.to_nat stage_id < List.length numerical_names)%nat) \/
  (forall b, In b ids -> b <= 0) ->
  forall x,
  exists y,
    ResNet2D_blocks block numerical_names freeze_bn features stage_id ids x
    = Ok y.
Proof.
  intro Hc. induction ids as [|a ids IH]; intro x; cbn [ResNet2D_blocks].
  - exists x. reflexivity.
  - assert (Hflag : exists flag,
               (if a >? 0 then getitem numerical_names stage_id else Ok false)
               = Ok flag).
    { destruct (a >? 0) eqn:Ea; [|exists false; reflexivity].
      apply Z.gtb_lt in Ea.
      destruct Hc as [[H0 Hl] | Hn].
      - apply getitem_in_range; assumption.
      - specialize (Hn a (or_introl eq_refl)). lia. }
    destruct Hflag as [flag ->]. cbn [bind].
    destruct (block_total features stage_id a flag freeze_bn) as [f [-> Hf]].
    cbn [bind]. destruct (Hf x) as [y ->]. cbn [bind].
    apply IH. destruct Hc as [Hc | Hn]; [left; exact Hc|].
    right. intros b Hb. apply Hn. right. exact Hb.
Qed.

Lemma blocks_index_error features stage_id ids :
  0 <= stage_id ->
  (List.length numerical_names <= Z.to_nat stage_id)%nat ->
  (exists b, In b ids /\ 0 < b) ->
  forall x,
  ResNet2D_blocks block numerical_names freeze_bn features stage_id ids x
  = Raise IndexError.
Proof.
  intros H0 Hl. induction ids as [|a ids IH]; intros [b [Hb Hpos]] x.
  - contradiction.
  - cbn [ResNet2D_blocks].
    destruct (a >? 0) eqn:Ea.
    + rewrite (getitem_out_of_range _ _ H0 Hl). reflexivity.
    + cbn [bind].
      destruct (block_total features stage_id a false freeze_bn)
        as [f [-> Hf]].
      cbn [bind]. destruct (Hf x) as [y ->]. cbn [bind].
      apply IH. exists b. split; [|exact Hpos].
      destruct Hb as [<- | Hb]; [|exact Hb].
      rewrite Z.gtb_ltb, Z.ltb_ge in Ea. lia.
Qed.

Lemma range_small n b : n < 2 -> In b (range n) -> b <= 0.
Proof. intros Hn Hb. apply in_range in Hb. lia. Qed.

Lemma range_has_one n : 2 <= n -> In 1 (range n).
Proof.
  intro Hn. unfold range. apply in_map_iff. exists 1%nat.
  split; [reflexivity|]. apply in_seq. lia.
Qed.

Lemma stages_return stages :
  (forall stage_id n,
     In (stage_id, n) stages ->
     0 <= stage_id /\
     (n < 2 \/ (Z.to_nat stage_id < List.length numerical_names)%nat)) ->
  forall x features outs,
  exists st,
    ResNet2D_stages block numerical_names freeze_bn stages x features outs
    = Ok st.
Proof.
  induction stages as [|[stage_id n] stages IH]; intros Hc x features outs;
    cbn [ResNet2D_stages].
  - eexists. reflexivity.
  - destruct (Hc stage_id n (or_introl eq_refl)) as [H0 Hn].
    destruct (blocks_return features stage_id (range n)) with (x := x)
      as [y ->].
    { destruct Hn as [Hn | Hl]; [right|left; split; assumption].
      intros b Hb. exact (range_small n b Hn Hb). }
    cbn [bind]. apply IH. intros s m Hin. apply Hc. right. exact Hin.
Qed.

Lemma stages_index_error stages :
  (forall stage_id n, In (stage_id, n) stages -> 0 <= stage_id) ->
  (exists stage_id n,
     In (stage_id, n) stages /\ 2 <= n /\
     (List.length numerical_names <= Z.to_nat stage_id)%nat) ->
  forall x features outs,
  ResNet2D_stages block numerical_names freeze_bn stages x features outs
  = Raise IndexError.
Proof.
  induction stages as [|[stage_id n] stages IH];
    intros H0 [s [m [Hin [Hm Hl]]]] x features outs.
  - contradiction.
  - cbn [ResNet2D_stages].
    pose proof (H0 stage_id n (or_introl eq_refl)) as Hs.
    destruct (Z_lt_le_dec n 2) as [Hn | Hn];
      [|destruct (le_lt_dec (List.length numerical_names) (Z.to_nat stage_id))
          as [Hlen | Hlen]].
    + destruct (blocks_return features stage_id (range n)) with (x := x)
        as [y ->].
      { right. intros b Hb. exact (range_small n b Hn Hb). }
      cbn [bind]. apply IH.
      * intros s' m' Hin'. apply (H0 s' m'). right. exact Hin'.
      * exists s, m. split; [|split; assumption].
        destruct Hin as [Heq | Hin]; [|exact Hin].
        injection Heq as -> ->. lia.
    + rewrite blocks_index_error; [reflexivity | exact Hs | exact Hlen |].
      exists 1. split; [apply range_has_one; exact Hn | lia].
    + destruct (blocks_return features stage_id (range n)) with (x := x)
        as [y ->].
      { left. split; assumption. }
      cbn [bind]. apply IH.
      * intros s' m' Hin'. apply (H0 s' m'). right. exact Hin'.
      * exists s, m. split; [|split; assumption].
        destruct Hin as [Heq | Hin]; [|exact Hin].
        injection Heq as -> ->. lia.
Qed.

End Outcome.

Lemma ResNet2D_with_names
    df inputs0 residual_blocks block include_top classes freeze_bn
    numerical_names :
  ResNet2D df inputs0 residual_blocks block include_top classes freeze_bn
    numerical_names =
  ResNet2D df inputs0 residual_blocks block include_top classes freeze_bn
    (Some (numerical_names_or_default residual_blocks numerical_names)).
Proof.
  destruct numerical_names as [l|]; [reflexivity|].
  unfold ResNet2D, numerical_names_or_default.
  rewrite default_numerical_names. reflexivity.
Qed.

Lemma enumerate_stages_return block names freeze_bn residual_blocks :
  never_raises block ->
  (forall i n,
     nth_error residual_blocks i = Some n -> 2 <= n ->
     (i < List.length names)%nat) ->
  forall x features outs,
  exists st,
    ResNet2D_stages block names freeze_bn (enumerate residual_blocks) x
      features outs = Ok st.
Proof.
  intros Hb Hc. apply stages_return; [exact Hb|].
  intros stage_id n Hin. apply enumerate_in in Hin.
  destruct Hin as [i [-> Hi]]. split; [lia|].
  destruct (Z_lt_le_dec n 2) as [Hn | Hn]; [left; exact Hn|].
  right. rewrite Nat2Z.id. exact (Hc i n Hi Hn).
Qed.

Lemma enumerate_stages_index_error block names freeze_bn residual_blocks :
  never_raises block ->
  (exists i n,
     nth_error residual_blocks i = Some n /\ 2 <= n /\
     (List.length names <= i)%nat) ->
  forall x features outs,
  ResNet2D_stages block names freeze_bn (enumerate residual_blocks) x
    features outs = Raise IndexError.
Proof.
  intros Hb [i [n [Hi [Hn Hl]]]]. apply stages_index_error; [exact Hb| |].
  - intros stage_id m Hin. apply enumerate_in in Hin.
    destruct Hin as [j [-> _]]. lia.
  - exists (Z.of_nat i), n. split; [|split; [exact Hn|]].
    + apply (nth_error_In _ i). rewrite enumerate_seq.
      exact (enumerate_nth residual_blocks 0 i n Hi).
    + rewrite Nat2Z.id. exact Hl.
Qed.

Lemma ResNet2D_index_error
    df inputs0 residual_blocks block include_top classes freeze_bn names :
  never_raises block ->
  (exists i n,
     nth_error residual_blocks i = Some n /\ 2 <= n /\
     (List.length names <= i)%nat) ->
  ResNet2D df inputs0 residual_blocks block include_top classes freeze_bn
    (Some names) = Raise IndexError.
Proof.
  intros Hb Hu. unfold ResNet2D.
  rewrite (enumerate_stages_index_error _ _ _ _ Hb Hu). reflexivity.
Qed.

Lemma ResNet2D_returns
    df inputs0 residual_blocks block include_top classes freeze_bn names :
  never_raises block ->
  (forall i n,
     nth_error residual_blocks i = Some n -> 2 <= n ->
     (i < List.length names)%nat) ->
  include_top = false \/ 0 < classes ->
  exists m,
    ResNet2D df inputs0 residual_blocks block include_top classes freeze_bn
      (Some names) = Ok m.
Proof.
  intros Hb Hc Ht. unfold ResNet2D.
  destruct (enumerate_stages_return _ _ freeze_bn _ Hb Hc
              (ResNet2D_stem df inputs0 freeze_bn) 64 [])
    as [[[x features] outs] ->].
  cbn [bind].
  destruct include_top.
  - destruct Ht as [Ht | Ht]; [discriminate Ht|].
    apply Z.gtb_lt in Ht. rewrite Ht. eexists. reflexivity.
  - eexists. reflexivity.
Qed.

(** With a block constructor that never raises, a construction ends in one
    of three ways.  When some stage of two or more blocks has no entry in
    [numerical_names], it raises [IndexError] (before [classes] is looked
    at).  Otherwise it raises the [AssertionError] when the top is asked
    for with [classes <= 0], and returns a model in every other case. *)
Theorem ResNet2D_outcome
    df inputs0 residual_blocks block include_top classes freeze_bn
    numerical_names :
  never_raises block ->
  ((exists i n,
      nth_error residual_blocks i = Some n /\ 2 <= n /\
      (List.length
         (numerical_names_or_default residual_blocks numerical_names)
       <= i)%nat) ->
   ResNet2D df inputs0 residual_blocks block include_top classes freeze_bn
     numerical_names = Raise IndexError) /\
  ((forall i n,
      nth_error residual_blocks i = Some n -> 2 <= n ->
      (i < List.length
             (numerical_names_or_default residual_blocks numerical_names))%nat)
   ->
   (include_top = true -> classes <= 0 ->
    ResNet2D df inputs0 residual_blocks block include_top classes freeze_bn
      numerical_names = Raise AssertionError) /\
   (include_top = false \/ 0 < classes ->
    exists m,
      ResNet2D df inputs0 residual_blocks block include_top classes freeze_bn
        numerical_names = Ok m)).
Proof.
  intro Hb. rewrite ResNet2D_with_names.
  split; [apply ResNet2D_index_error; exact Hb|].
  intro Hc. split; [|apply ResNet2D_returns; assumption].
  intros -> Hcl. unfold ResNet2D.
  destruct (enumerate_stages_return _ _ freeze_bn _ Hb Hc
              (ResNet2D_stem df inputs0 freeze_bn) 64 [])
    as [[[x features] outs] ->].
  cbn [bind].
  replace (classes >? 0) with false; [reflexivity|].
  symmetry. rewrite Z.gtb_ltb. apply Z.ltb_ge. exact Hcl.
Qed.



(** ** Which blocks a model is made of *)

Lemma block_ids_app l1 l2 : block_ids (l1 ++ l2) = block_ids l1 ++ block_ids l2.
Proof. unfold block_ids. apply flat_map_app. Qed.

Lemma range_empty n : n <= 0 -> range n = [].
Proof.
  intro H. unfold range. replace (Z.to_nat n) with 0%nat by lia. reflexivity.
Qed.

Lemma opaque_blocks_ids kind names freeze_bn features stage_id ids :
  forall x y,
  ResNet2D_blocks (opaque_block kind) names freeze_bn features stage_id ids x
    = Ok y ->
  block_ids (layers_of y) =
  block_ids (layers_of x) ++ map (fun b => (stage_id, b)) ids.
Proof.
  induction ids as [|a ids IH]; intros x y; cbn [ResNet2D_blocks].
  - intro H. injection H as <-. cbn [map]. rewrite app_nil_r. reflexivity.
  - destruct (if a >? 0 then getitem names stage_id else Ok false)
      as [flag|e]; cbn [bind opaque_block]; [|discriminate].
    intro H. apply IH in H. rewrite H. cbn [layers_of map].
    rewrite block_ids_app, <- app_assoc. reflexivity.
Qed.

Lemma opaque_stages_ids kind names freeze_bn stages :
  forall x features outs x' features' outs',
  ResNet2D_stages (opaque_block kind) names freeze_bn stages x features outs
    = Ok (x', features', outs') ->
  block_ids (layers_of x') =
    block_ids (layers_of x) ++ scheduled_blocks stages /\
  exists new,
    outs' = outs ++ new /\
    forall j o,
      nth_error new j = Some o ->
      block_ids (layers_of o) =
      block_ids (layers_of x) ++ scheduled_blocks (firstn (S j) stages).
Proof.
  induction stages as [|[stage_id n] stages IH];
    intros x features outs x' features' outs'; cbn [ResNet2D_stages].
  - intro H. injection H as <- _ <-. split.
    + cbn. rewrite app_nil_r. reflexivity.
    + exists []. rewrite app_nil_r. split; [reflexivity|].
      intros j o Hj. destruct j; discriminate Hj.
  - destruct (ResNet2D_blocks (opaque_block kind) names freeze_bn features
                stage_id (range n) x) as [y|e] eqn:Ey;
      cbn [bind]; [|discriminate].
    intro H. apply IH in H. destruct H as [Hx [new [Ho Hn]]].
    apply opaque_blocks_ids in Ey.
    assert (Hhead : forall rest,
               block_ids (layers_of y) ++ scheduled_blocks rest =
               block_ids (layers_of x) ++
               scheduled_blocks ((stage_id, n) :: rest)).
    { intro rest. rewrite Ey. unfold scheduled_blocks at 2.
      cbn [flat_map fst snd]. rewrite <- app_assoc. reflexivity. }
    split; [rewrite Hx; apply Hhead|].
    exists (y :: new). split; [rewrite Ho, <- app_assoc; reflexivity|].
    intros [|j] o Hj.
    + cbn in Hj. injection Hj as <-. cbn [firstn].
      rewrite <- Hhead. cbn. rewrite app_nil_r. reflexivity.
    + cbn [nth_error] in Hj. rewrite (Hn j o Hj).
      change (firstn (S (S j)) ((stage_id, n) :: stages))
        with ((stage_id, n) :: firstn (S j) stages).
      apply Hhead.
Qed.

(** The blocks of a model are exactly those of the two loops, in their
    order: for every stage [i] in turn, the blocks [0] to
    [residual_blocks[i] - 1].  With the top, the one output holds them all;
    without it, output [j] holds those of the stages up to [j]. *)
Theorem blocks_in_schedule_order
    df shape residual_blocks kind include_top classes freeze_bn
    numerical_names m :
  ResNet2D df (Input shape) residual_blocks (opaque_block kind) include_top
    classes freeze_bn numerical_names = Ok m ->
  match outputs m with
  | OutputTensor t =>
      block_ids (layers_of t) = scheduled_blocks (enumerate residual_blocks)
  | OutputList outs =>
      forall j o,
        nth_error outs j = Some o ->
        block_ids (layers_of o) =
        scheduled_blocks (firstn (S j) (enumerate residual_blocks))
  end.
Proof.
  unfold ResNet2D.
  destruct (ResNet2D_stages _ _ _ _ _ _ _) as [[[x features] outs]|e] eqn:E;
    cbn [bind]; [|discriminate].
  apply opaque_stages_ids in E. destruct E as [Hx [new [Ho Hn]]].
  cbn [app] in Ho. subst outs.
  change (block_ids (layers_of (ResNet2D_stem df (Input shape) freeze_bn)))
    with (@nil (Z * Z)) in Hx, Hn.
  cbn [app] in Hx, Hn.
  destruct include_top.
  - destruct (classes >? 0); [|discriminate].
    intro H. injection H as <-. cbn [outputs layers_of].
    rewrite !block_ids_app, Hx. cbn. rewrite !app_nil_r. reflexivity.
  - intro H. injection H as <-. cbn [outputs]. exact Hn.
Qed.

(** ** Stages without blocks *)

Lemma stages_empty_stage block names freeze_bn stages :
  forall x features outs x' features' outs',
  ResNet2D_stages block names freeze_bn stages x features outs
    = Ok (x', features', outs') ->
  exists new,
    outs' = outs ++ new /\
    forall j stage_id n,
      nth_error stages j = Some (stage_id, n) ->
      n <= 0 ->
      nth_error new j =
      Some (match j with
            | O => x
            | S j' => nth j' new x
            end).
Proof.
  induction stages as [|[stage_id n] stages IH];
    intros x features outs x' features' outs'; cbn [ResNet2D_stages].
  - intro H. injection H as <- _ <-. exists []. rewrite app_nil_r.
    split; [reflexivity|]. intros j ? ? Hj. destruct j; discriminate Hj.
  - destruct (ResNet2D_blocks block names freeze_bn features stage_id
                (range n) x) as [y|e] eqn:Ey; cbn [bind]; [|discriminate].
    intro H. apply IH in H. destruct H as [new [Ho Hn]].
    exists (y :: new). split; [rewrite Ho, <- app_assoc; reflexivity|].
    intros [|j] sid m Hj Hm.
    + cbn in Hj. injection Hj as <- <-.
      rewrite range_empty in Ey by exact Hm. cbn in Ey.
      injection Ey as <-. reflexivity.
    + cbn [nth_error] in Hj. cbn [nth_error].
      pose proof (Hn j sid m Hj Hm) as Hnew. rewrite Hnew.
      destruct j as [|j]; [reflexivity|].
      cbn [nth]. f_equal. apply nth_indep.
      assert (Hlt : (S j < List.length new)%nat)
        by (apply nth_error_Some; rewrite Hnew; discriminate).
      lia.
Qed.

(** A stage whose entry of [residual_blocks] is zero or negative builds no
    block: its output is the output of the stage before it, and for the
    first stage the output of the stem. *)
Theorem stage_without_blocks
    df inputs0 residual_blocks block classes freeze_bn numerical_names m
    outs j n :
  ResNet2D df inputs0 residual_blocks block false classes freeze_bn
    numerical_names = Ok m ->
  outputs m = OutputList outs ->
  nth_error residual_blocks j = Some n ->
  n <= 0 ->
  nth_error outs j =
  Some (match j with
        | O => ResNet2D_stem df inputs0 freeze_bn
        | S j' => nth j' outs (ResNet2D_stem df inputs0 freeze_bn)
        end).
Proof.
  unfold ResNet2D.
  destruct (ResNet2D_stages _ _ _ _ _ _ _) as [[[x features] os]|e] eqn:E;
    cbn [bind]; [|discriminate].
  apply stages_empty_stage in E. destruct E as [new [Ho Hn]].
  cbn [app] in Ho. subst os.
  intro H. injection H as <-. cbn [outputs].
  intro H. injection H as <-.
  intros Hj Hle.
  apply (Hn j (Z.of_nat j) n); [|exact Hle].
  rewrite enumerate_seq. exact (enumerate_nth residual_blocks 0 j n Hj).
Qed.

(** ** The top *)

(** The classification layers sit on the output of the last stage: when
    the body is built (whatever [classes] is then) and [classes > 0], the
    model with the top is built too, and its output is [fc1000] on [pool5]
    on the last output of the body, or on the stem when there is no
    stage. *)
Theorem top_on_last_stage
    df inputs0 residual_blocks block classes0 classes freeze_bn
    numerical_names body outs :
  ResNet2D df inputs0 residual_blocks block false classes0 freeze_bn
    numerical_names = Ok body ->
  outputs body = OutputList outs ->
  0 < classes ->
  ResNet2D df inputs0 residual_blocks block true classes freeze_bn
    numerical_names =
  Ok {| inputs := inputs0;
        outputs :=
          OutputTensor
            (Call1 (Dense classes (lit "softmax") (lit "fc1000"))
               (Call1 (GlobalAveragePooling2D (lit "pool5"))
                  (last outs (ResNet2D_stem df inputs0 freeze_bn)))) |}.
Proof.
  unfold ResNet2D.
  destruct (ResNet2D_stages _ _ _ _ _ _ _) as [[[x features] os]|e] eqn:E;
    cbn [bind]; [|discriminate].
  apply stages_outputs in E. destruct E as [_ [new [Ho [_ [Hx _]]]]].
  cbn [app] in Ho. subst os.
  intro H. injection H as <-. cbn [outputs].
  intro H. injection H as <-.
  intro Hc. apply Z.gtb_lt in Hc. rewrite Hc, Hx. reflexivity.
Qed.

(** ** Naming in the variants *)




(** ** The further theorems at concrete inputs *)

Lemma opaque_never_raises kind : never_raises (opaque_block kind).
Proof.
  intros filters stage b flag fb. eexists. split; [reflexivity|].
  intro x. eexists. reflexivity.
Qed.

Lemma block_layer_names_differ_witness :
  exists y1 y2,
    basic_1d_f 64 0 3 false
      {| stride := 2; axis := -1; block_char := lit "a";
         stage_char := lit "3" |} (Input [224; 3]) = Ok y1 /\
    bottleneck_1d_f 64 0 3 false
      {| stride := 2; axis := -1; block_char := lit "a";
         stage_char := lit "3" |} (Input [224; 3]) = Ok y2 /\
    NoDup (map layer_name (layers_of y1)) /\
    NoDup (map layer_name (layers_of y2)).
Proof.
  do 2 eexists. split; [reflexivity|]. split; [reflexivity|].
  exact (block_layer_names_differ 64 0 3 false _ [224; 3] _ _
           eq_refl eq_refl).
Defined.

(** Block 1 named by letter and block 11 named by number, both of stage 1:
    ["res3b_branch2a"] and ["res3b11_branch2a"] differ. *)
Lemma names_identify_blocks_witness :
  exists v1 v2,
    basic_1d_locals channels_last 1 1 false None = Ok v1 /\
    basic_1d_locals channels_last 1 11 true None = Ok v2 /\
    template_name "res" v1 "_branch2a" <> template_name "res" v2 "_branch2a".
Proof.
  do 2 eexists. split; [reflexivity|]. split; [reflexivity|].
  intro H.
  destruct (names_identify_blocks
              channels_last 1 1 false None _ "res" "_branch2a"
              channels_last 1 11 true None _ "res" "_branch2a"
              eq_refl eq_refl) as [_ [_ [_ Hb]]];
    try lia; try exact H;
    try (unfold prefixes, suffixes; cbn [In]; tauto).
Defined.

Lemma strides_only_at_entry_witness :
  exists f1 f2 y1 y2,
    basic_1d channels_last 64 1 0 3 false None false = Ok f1 /\
    bottleneck_1d channels_last 64 1 0 3 false None false = Ok f2 /\
    f1 (Input [224; 3]) = Ok y1 /\
    f2 (Input [224; 3]) = Ok y2 /\
    In (Conv1D 256 1 None false (lit "res3a_branch2c") (lit "he_normal"))
      (layers_of y1 ++ layers_of y2) /\
    exists v,
      basic_1d_locals channels_last 1 0 false None = Ok v /\
      ((@None Z = Some 2 /\
        (lit "res3a_branch2c" = template_name "res" v "_branch2a" \/
         lit "res3a_branch2c" = template_name "res" v "_branch1")) \/
       (@None Z = None /\
        (lit "res3a_branch2c" = template_name "res" v "_branch2b" \/
         lit "res3a_branch2c" = template_name "res" v "_branch2c"))).
Proof.
  do 4 eexists.
  split; [reflexivity|]. split; [reflexivity|].
  split; [reflexivity|]. split; [reflexivity|].
  assert (Hin : In (Conv1D 256 1 None false (lit "res3a_branch2c")
                      (lit "he_normal"))
                  (layers_of
                     (add_relu
                        {| stride := 2; axis := -1; block_char := lit "a";
                           stage_char := lit "3" |}
                        (stack
                           (basic_1d_main 64 3 false
                              {| stride := 2; axis := -1;
                                 block_char := lit "a";
                                 stage_char := lit "3" |})
                           (Input [224; 3]))
                        (stack
                           (projection 64 false
                              {| stride := 2; axis := -1;
                                 block_char := lit "a";
                                 stage_char := lit "3" |})
                           (Input [224; 3]))) ++
                   layers_of
                     (add_relu
                        {| stride := 2; axis := -1; block_char := lit "a";
                           stage_char := lit "3" |}
                        (stack
                           (bottleneck_1d_main 64 3 false
                              {| stride := 2; axis := -1;
                                 block_char := lit "a";
                                 stage_char := lit "3" |})
                           (Input [224; 3]))
                        (stack
                           (projection (64 * 4) false
                              {| stride := 2; axis := -1;
                                 block_char := lit "a";
                                 stage_char := lit "3" |})
                           (Input [224; 3]))))).
  { vm_compute. tauto. }
  split; [exact Hin|].
  exact (strides_only_at_entry channels_last 64 1 0 3 false None false _ _
           [224; 3] _ _ 256 1 None false (lit "res3a_branch2c")
           (lit "he_normal") eq_refl eq_refl eq_refl eq_refl Hin).
Defined.

Lemma block_layer_settings_witness :
  exists f1 f2 y1 y2,
    basic_1d channels_last 64 1 0 3 false None true = Ok f1 /\
    bottleneck_1d channels_last 64 1 0 3 false None true = Ok f2 /\
    f1 (Input [224; 3]) = Ok y1 /\
    f2 (Input [224; 3]) = Ok y2 /\
    In (BatchNormalization (-1) "1e-5" true (lit "bn3a_branch1"))
      (layers_of y1 ++ layers_of y2) /\
    -1 = (if str_eqb channels_last (lit "channels_last") then -1 else 1) /\
    "1e-5"%string = "1e-5"%string /\ true = true.
Proof.
  do 4 eexists.
  split; [reflexivity|]. split; [reflexivity|].
  split; [reflexivity|]. split; [reflexivity|].
  assert (Hin : In (BatchNormalization (-1) "1e-5" true (lit "bn3a_branch1"))
                  (layers_of
                     (add_relu
                        {| stride := 2; axis := -1; block_char := lit "a";
                           stage_char := lit "3" |}
                        (stack
                           (basic_1d_main 64 3 true
                              {| stride := 2; axis := -1;
                                 block_char := lit "a";
                                 stage_char := lit "3" |})
                           (Input [224; 3]))
                        (stack
                           (projection 64 true
                              {| stride := 2; axis := -1;
                                 block_char := lit "a";
                                 stage_char := lit "3" |})
                           (Input [224; 3]))) ++
                   layers_of
                     (add_relu
                        {| stride := 2; axis := -1; block_char := lit "a";
                           stage_char := lit "3" |}
                        (stack
                           (bottleneck_1d_main 64 3 true
                              {| stride := 2; axis := -1;
                                 block_char := lit "a";
                                 stage_char := lit "3" |})
                           (Input [224; 3]))
                        (stack
                           (projection (64 * 4) true
                              {| stride := 2; axis := -1;
                                 block_char := lit "a";
                                 stage_char := lit "3" |})
                           (Input [224; 3]))))).
  { vm_compute. tauto. }
  split; [exact Hin|].
  exact (block_layer_settings channels_last 64 1 0 3 false None true _ _
           [224; 3] _ _ _ eq_refl eq_refl eq_refl eq_refl Hin).
Defined.

(** Five stages under four flags: the fifth stage has two blocks and no
    flag, so the construction raises [IndexError], here even though
    [classes] is 0; with five flags and a class it returns. *)
Lemma ResNet2D_outcome_witness :
  ResNet2D channels_last (Input [224; 224; 3]) [3; 4; 6; 3; 2]
    (opaque_block Bottleneck) true 0 false (Some [false; true; true; false])
  = Raise IndexError /\
  exists m,
    ResNet2D channels_last (Input [224; 224; 3]) [3; 4; 6; 3; 2]
      (opaque_block Bottleneck) true 10 false
      (Some [false; true; true; false; false]) = Ok m.
Proof.
  split.
  - apply (ResNet2D_outcome channels_last (Input [224; 224; 3])
             [3; 4; 6; 3; 2] (opaque_block Bottleneck) true 0 false
             (Some [false; true; true; false])
             (opaque_never_raises Bottleneck)).
    exists 4%nat, 2. split; [reflexivity|]. split; [lia|]. cbn. lia.
  - apply (ResNet2D_outcome channels_last (Input [224; 224; 3])
             [3; 4; 6; 3; 2] (opaque_block Bottleneck) true 10 false
             (Some [false; true; true; false; false])
             (opaque_never_raises Bottleneck)).
    + intros i n Hi _. cbn.
      assert (Hlt : (i < List.length [3; 4; 6; 3; 2]%Z)%nat)
        by (apply nth_error_Some; rewrite Hi; discriminate).
      exact Hlt.
    + right. lia.
Defined.



(** The body of ResNet18: its last output holds the eight blocks in
    order. *)
Lemma blocks_in_schedule_order_witness :
  exists m o,
    ResNet2D channels_last (Input [224; 224; 3]) [2; 2; 2; 2]
      (opaque_block Basic) false 1000 false None = Ok m /\
    nth_error
      (match outputs m with
       | OutputList outs => outs
       | OutputTensor t => [t]
       end) 3 = Some o /\
    block_ids (layers_of o) =
      [(0, 0); (0, 1); (1, 0); (1, 1); (2, 0); (2, 1); (3, 0); (3, 1)].
Proof.
  do 2 eexists. split; [reflexivity|]. split; [reflexivity|].
  exact (blocks_in_schedule_order channels_last [224; 224; 3] [2; 2; 2; 2]
           Basic false 1000 false None _ eq_refl 3%nat _ eq_refl).
Defined.

(** Stages of 2, 0 and 2 blocks: the second output is the first. *)
Lemma stage_without_blocks_witness :
  exists m outs,
    ResNet2D channels_last (Input [224; 224; 3]) [2; 0; 2]
      (opaque_block Basic) false 1000 false None = Ok m /\
    outputs m = OutputList outs /\
    nth_error [2; 0; 2] 1 = Some 0 /\
    0 <= 0 /\
    nth_error outs 1 =
      Some (nth 0 outs
              (ResNet2D_stem channels_last (Input [224; 224; 3]) false)).
Proof.
  do 2 eexists. split; [reflexivity|]. split; [reflexivity|].
  split; [reflexivity|]. split; [lia|].
  apply (stage_without_blocks channels_last (Input [224; 224; 3]) [2; 0; 2]
           (opaque_block Basic) 1000 false None _ _ 1%nat 0
           eq_refl eq_refl eq_refl).
  lia.
Defined.

(** ResNet18: the body is built with [classes = 0], and with the top and
    ten classes the output sits on the fourth output of the body. *)
Lemma top_on_last_stage_witness :
  exists body outs,
    ResNet2D channels_last (Input [224; 224; 3]) [2; 2; 2; 2]
      (opaque_block Basic) false 0 false None = Ok body /\
    outputs body = OutputList outs /\
    0 < 10 /\
    ResNet2D channels_last (Input [224; 224; 3]) [2; 2; 2; 2]
      (opaque_block Basic) true 10 false None =
    Ok {| inputs := Input [224; 224; 3];
          outputs :=
            OutputTensor
              (Call1 (Dense 10 (lit "softmax") (lit "fc1000"))
                 (Call1 (GlobalAveragePooling2D (lit "pool5"))
                    (last outs
                       (ResNet2D_stem channels_last (Input [224; 224; 3])
                          false)))) |}.
Proof.
  do 2 eexists. split; [reflexivity|]. split; [reflexivity|].
  split; [lia|].
  apply (top_on_last_stage channels_last (Input [224; 224; 3]) [2; 2; 2; 2]
           (opaque_block Basic) 0 10 false None _ _ eq_refl eq_refl).
  lia.
Defined.

(** ** What every block of a model is given *)

(** Every block of a model is built by the block constructor passed to
    [ResNet2D], with the caller's [freeze_bn], for a stage of
    [residual_blocks] and a block number below that stage's entry. *)
Theorem blocks_get_freeze_bn
    df shape residual_blocks kind include_top classes freeze_bn
    numerical_names m k filters stage block flag fb :
  ResNet2D df (Input shape) residual_blocks (opaque_block kind) include_top
    classes freeze_bn numerical_names = Ok m ->
  In (Residual2D k filters stage block flag fb) (model_layers m) ->
  k = kind /\ fb = freeze_bn /\
  exists iterations,
    0 <= stage /\
    nth_error residual_blocks (Z.to_nat stage) = Some iterations /\
    0 <= block < iterations.
Proof.
  intros Hm Hin.
  pose proof (opaque_model_designed _ _ _ _ _ _ _ _ _ Hm) as Hd.
  rewrite Forall_forall in Hd. specialize (Hd _ Hin).
  cbn [designed_call] in Hd.
  destruct Hd as [Hk [Hf [Hs [[n [Hn Hb]] _]]]].
  split; [exact Hk|]. split; [exact Hf|].
  exists n. split; [exact Hs|]. split; [exact Hn|exact Hb].
Qed.

Lemma blocks_get_freeze_bn_witness :
  exists m,
    ResNet2D channels_last (Input [224; 224; 3]) [1; 2]
      (opaque_block Bottleneck) true 10 true None = Ok m /\
    In (Residual2D Bottleneck 128 1 1 true true) (model_layers m) /\
    Bottleneck = Bottleneck /\ true = true /\
    exists iterations,
      0 <= 1 /\
      nth_error [1; 2] (Z.to_nat 1) = Some iterations /\
      0 <= 1 < iterations.
Proof.
  eexists. split; [reflexivity|].
  assert (Hin : In (Residual2D Bottleneck 128 1 1 true true)
                  (model_layers
                     {| inputs := Input [224; 224; 3];
                        outputs :=
                          OutputTensor
                            (Call1 (Dense 10 (lit "softmax") (lit "fc1000"))
                               (Call1 (GlobalAveragePooling2D (lit "pool5"))
                                  (Call1
                                     (Residual2D Bottleneck 128 1 1 true true)
                                     (Call1
                                        (Residual2D Bottleneck 128 1 0 false
                                           true)
                                        (Call1
                                           (Residual2D Bottleneck 64 0 0 false
                                              true)
                                           (ResNet2D_stem channels_last
                                              (Input [224; 224; 3])
                                              true)))))) |})).
  { vm_compute. tauto. }
  split; [exact Hin|].
  exact (blocks_get_freeze_bn channels_last [224; 224; 3] [1; 2] Bottleneck
           true 10 true None _ _ _ _ _ _ _ eq_refl Hin).
Defined.

(** ** The variants *)

Lemma opaque_builds
    df shape residual_blocks kind include_top classes freeze_bn
    numerical_names :
  include_top = false \/ 0 < classes ->
  (List.length residual_blocks <=
   List.length (numerical_names_or_default residual_blocks numerical_names))%nat
  ->
  builds kind residual_blocks
    (ResNet2D df (Input shape) residual_blocks (opaque_block kind)
       include_top classes freeze_bn numerical_names).
Proof.
  intros Ht Hl.
  destruct (ResNet2D_returns df (Input shape) residual_blocks
              (opaque_block kind) include_top classes freeze_bn
              (numerical_names_or_default residual_blocks numerical_names)
              (opaque_never_raises kind)) as [m Hm]; [|exact Ht|].
  { intros i n Hi _.
    assert (Hlt : (i < List.length residual_blocks)%nat)
      by (apply nth_error_Some; rewrite Hi; discriminate).
    lia. }
  rewrite <- ResNet2D_with_names in Hm.
  exists m. split; [exact Hm|]. split.
  - intros k filters stage block flag fb Hin.
    pose proof (opaque_model_designed _ _ _ _ _ _ _ _ _ Hm) as Hd.
    rewrite Forall_forall in Hd. specialize (Hd _ Hin).
    cbn [designed_call] in Hd. apply Hd.
  - revert Hm. unfold ResNet2D.
    destruct (ResNet2D_stages _ _ _ _ _ _ _)
      as [[[x features] outs]|e] eqn:E; cbn [bind]; [|discriminate].
    pose proof (opaque_stages_ids _ _ _ _ _ _ _ _ _ _ E) as [Hx _].
    pose proof (stages_outputs _ _ _ _ _ _ _ _ _ _ E)
      as [_ [new [Ho [Hlen [Hlast _]]]]].
    cbn [app] in Ho. subst outs.
    change (block_ids (layers_of (ResNet2D_stem df (Input shape) freeze_bn)))
      with (@nil (Z * Z)) in Hx.
    cbn [app] in Hx.
    destruct include_top.
    + destruct (classes >? 0); [|discriminate].
      intro H. injection H as <-. unfold final_tensor.
      cbn [outputs layers_of].
      rewrite !block_ids_app, Hx. cbn. rewrite !app_nil_r. reflexivity.
    + intro H. injection H as <-. unfold final_tensor.
      cbn [outputs inputs].
      destruct new as [|o new].
      * cbn [last] in Hlast. subst x. cbn [last]. rewrite <- Hx. reflexivity.
      * rewrite <- Hx, Hlast. rewrite !last_cons. reflexivity.
Qed.

(** C1: called with [residual_blocks=None], each variant is [ResNet2D] on
    its fixed table of per-stage block counts, with [blocks.basic_2d] for
    the 18 and 34 variants and [blocks.bottleneck_2d] for the 50, 101, 152
    and 200 variants; and with the recording blocks, whenever the top is
    left out or [classes > 0], it returns a model made of exactly the
    table's number of blocks in every stage, all of them basic blocks for
    18 and 34 and bottleneck blocks for 50, 101, 152 and 200. *)
Theorem variant_tables df shape include_top classes freeze_bn :
  include_top = false \/ 0 < classes ->
  builds Basic [2; 2; 2; 2]
    (ResNet2D18 df opaque_blocks (Input shape) None include_top classes
       freeze_bn) /\
  builds Basic [3; 4; 6; 3]
    (ResNet2D34 df opaque_blocks (Input shape) None include_top classes
       freeze_bn) /\
  builds Bottleneck [3; 4; 6; 3]
    (ResNet2D50 df opaque_blocks (Input shape) None include_top classes
       freeze_bn) /\
  builds Bottleneck [3; 4; 23; 3]
    (ResNet2D101 df opaque_blocks (Input shape) None include_top classes
       freeze_bn) /\
  builds Bottleneck [3; 8; 36; 3]
    (ResNet2D152 df opaque_blocks (Input shape) None include_top classes
       freeze_bn) /\
  builds Bottleneck [3; 24; 36; 3]
    (ResNet2D200 df opaque_blocks (Input shape) None include_top classes
       freeze_bn) /\
  forall blocks inputs0,
    ResNet2D18 df blocks inputs0 None include_top classes freeze_bn =
      ResNet2D df inputs0 [2; 2; 2; 2] (basic_2d blocks) include_top classes
        freeze_bn None /\
    ResNet2D34 df blocks inputs0 None include_top classes freeze_bn =
      ResNet2D df inputs0 [3; 4; 6; 3] (basic_2d blocks) include_top classes
        freeze_bn None /\
    ResNet2D50 df blocks inputs0 None include_top classes freeze_bn =
      ResNet2D df inputs0 [3; 4; 6; 3] (bottleneck_2d blocks) include_top
        classes freeze_bn (Some [false; false; false; false]) /\
    ResNet2D101 df blocks inputs0 None include_top classes freeze_bn =
      ResNet2D df inputs0 [3; 4; 23; 3] (bottleneck_2d blocks) include_top
        classes freeze_bn (Some [false; true; true; false]) /\
    ResNet2D152 df blocks inputs0 None include_top classes freeze_bn =
      ResNet2D df inputs0 [3; 8; 36; 3] (bottleneck_2d blocks) include_top
        classes freeze_bn (Some [false; true; true; false]) /\
    ResNet2D200 df blocks inputs0 None include_top classes freeze_bn =
      ResNet2D df inputs0 [3; 24; 36; 3] (bottleneck_2d blocks) include_top
        classes freeze_bn (Some [false; true; true; false]).
Proof.
  intro Ht.
  unfold ResNet2D18, ResNet2D34, ResNet2D50, ResNet2D101, ResNet2D152,
    ResNet2D200, default_blocks.
  cbn [basic_2d bottleneck_2d opaque_blocks].
  repeat split; apply opaque_builds; try exact Ht; cbn; lia.
Qed.

(** ResNet18 with the top and a thousand classes: eight basic blocks, two
    in each of the four stages. *)
Lemma variant_tables_witness :
  (true = false \/ 0 < 1000) /\
  exists m,
    ResNet2D18 channels_last opaque_blocks (Input [224; 224; 3]) None true
      1000 false = Ok m /\
    (forall k filters stage block flag fb,
       In (Residual2D k filters stage block flag fb) (model_layers m) ->
       k = Basic) /\
    block_ids (layers_of (final_tensor m)) =
      [(0, 0); (0, 1); (1, 0); (1, 1); (2, 0); (2, 1); (3, 0); (3, 1)].
Proof.
  split; [right; lia|].
  assert (Ht : true = false \/ 0 < 1000) by (right; lia).
  exact (proj1 (variant_tables channels_last [224; 224; 3] true 1000 false
                  Ht)).
Defined.
